(** * A shallow embedding of the post scheduler bot ([main.py])

    The development follows the source file top to bottom: the Python
    values the program stores in its dictionaries, the [restricted]
    decorator, the dispatcher [send_post], the start-up reconciler
    [reload_jobs_from_db], the dialogue handlers and the conversation
    table of [main].  Theorems come after the definitions. *)

From Stdlib Require Import ZArith String Ascii List Lia Bool.
From stdpp Require Import base option list gmap strings fin_maps.

Local Open Scope string_scope.
Local Open Scope list_scope.
Local Open Scope Z_scope.

(** ** Python values and exceptions *)

(** The values that occur in [context.user_data] and in a Firestore
    document.  A timezone-aware [datetime] is the instant it denotes
    (a number of minutes since the epoch); strings are byte strings (the
    UTF-8 encoding of the Python text); [VServerTimestamp] is the
    sentinel [firestore.SERVER_TIMESTAMP]. *)
#[warnings="-register-all"]
Inductive pyval :=
| VNone
| VBool (b : bool)
| VInt (n : Z)
| VStr (s : string)
| VTime (t : Z)
| VList (l : list pyval)
| VDict (d : gmap string pyval)
| VServerTimestamp.

(** A Python [dict] with string keys. *)
Abbreviation pydict := (gmap string pyval).

Inductive exn :=
| KeyError | TypeError | ValueError | IndexError | AttributeError
| OverflowError | TelegramError | StoreError.

Inductive result (A : Type) :=
| Ok (a : A)
| Raise (e : exn).
Arguments Ok {A} a.
Arguments Raise {A} e.

#[global] Instance result_ret : MRet result := λ A a, Ok a.
#[global] Instance result_bind : MBind result :=
  λ A B f m, match m with Ok a => f a | Raise e => Raise e end.

(** [bool(v)] *)
Definition truthy (v : pyval) : bool :=
  match v with
  | VNone => false
  | VBool b => b
  | VInt n => negb (n =? 0)
  | VStr s => negb (bool_decide (s = ""))
  | VTime _ => true
  | VList l => match l with [] => false | _ => true end
  | VDict d => match map_to_list d with [] => false | _ => true end
  | VServerTimestamp => true
  end.

(** [d[k]] *)
Definition py_getitem (d : pydict) (k : string) : result pyval :=
  match d !! k with
  | Some v => Ok v
  | None => Raise KeyError
  end.

(** [d.get(k, dflt)]; [d.get(k)] is [py_get d k VNone]. *)
Definition py_get (d : pydict) (k : string) (dflt : pyval) : pyval :=
  default dflt (d !! k).

(** [v == s] for a string literal [s] *)
Definition py_eq_str (v : pyval) (s : string) : bool :=
  match v with
  | VStr s' => bool_decide (s' = s)
  | _ => false
  end.

(** [v == n] for an integer literal [n] ([True == 1] and [False == 0]
    hold in Python). *)
Definition py_eq_int (v : pyval) (n : Z) : bool :=
  match v with
  | VInt m => m =? n
  | VBool b => (if b then 1 else 0) =? n
  | _ => false
  end.

(** [v > n] for an integer literal [n]; ordering a non-number against an
    integer raises [TypeError]. *)
Definition py_gt_int (v : pyval) (n : Z) : result bool :=
  match v with
  | VInt m => Ok (n <? m)
  | VBool b => Ok (n <? (if b then 1 else 0))
  | _ => Raise TypeError
  end.

(** [v > t] for an aware datetime [t]. *)
Definition py_gt_time (v : pyval) (t : Z) : result bool :=
  match v with
  | VTime t' => Ok (t <? t')
  | _ => Raise TypeError
  end.

(** *** Strings *)

Definition LF : string := String "010"%char "".

Definition lower_ascii (c : ascii) : ascii :=
  let n := nat_of_ascii c in
  if ((65 <=? n) && (n <=? 90))%nat then ascii_of_nat (n + 32) else c.

(** [s.lower()], on the ASCII letters. *)
Fixpoint lower (s : string) : string :=
  match s with
  | "" => ""
  | String c s' => String (lower_ascii c) (lower s')
  end.

Definition is_digit (c : ascii) : bool :=
  let n := nat_of_ascii c in ((48 <=? n) && (n <=? 57))%nat.

Definition digit_val (c : ascii) : Z := Z.of_nat (nat_of_ascii c) - 48.

Definition is_space (c : ascii) : bool :=
  let n := nat_of_ascii c in ((n =? 32) || ((9 <=? n) && (n <=? 13)))%nat.

Fixpoint lstrip (l : list ascii) : list ascii :=
  match l with
  | c :: l' => if is_space c then lstrip l' else l
  | [] => []
  end.

Definition strip (l : list ascii) : list ascii :=
  rev (lstrip (rev (lstrip l))).

(** The digits of an integer literal, most significant first; a single
    underscore may separate two digits.  [prev] tells whether the
    preceding character was a digit. *)
Fixpoint int_digits (prev : bool) (acc : Z) (l : list ascii) : option Z :=
  match l with
  | [] => if prev then Some acc else None
  | c :: l' =>
      if is_digit c then int_digits true (10 * acc + digit_val c) l'
      else if bool_decide (c = "_"%char) && prev then int_digits false acc l'
      else None
  end.

(** [int(s)] for a string: surrounding white space, an optional sign,
    decimal digits. *)
Definition py_int (s : string) : result Z :=
  let body := strip (list_ascii_of_string s) in
  let parsed :=
    match body with
    | "-"%char :: l => Z.opp <$> int_digits false 0 l
    | "+"%char :: l => int_digits false 0 l
    | l => int_digits false 0 l
    end in
  match parsed with
  | Some n => Ok n
  | None => Raise ValueError
  end.

(** [s[-1]] and [s[:-1]] *)
Fixpoint last_char (s : string) : option ascii :=
  match s with
  | "" => None
  | String c "" => Some c
  | String _ s' => last_char s'
  end.

Fixpoint but_last (s : string) : string :=
  match s with
  | "" => ""
  | String c "" => ""
  | String c s' => String c (but_last s')
  end.

(** [timedelta(minutes=m)]: the number of days of a [timedelta] is
    limited to nine decimal digits. *)
Definition timedelta (m : Z) : result Z :=
  if (-999999999 <=? m / 1440) && (m / 1440 <=? 999999999)
  then Ok m else Raise OverflowError.

(** The interval computation shared by [reload_jobs_from_db] (lines
    114-116) and [save_schedule] (lines 277-279):
    [unit = interval_str[-1]; value = int(interval_str[:-1])], then
    minutes, hours or days.  The result is in minutes. *)
Definition parse_interval (interval_str : pyval) : result Z :=
  match interval_str with
  | VStr s =>
      match last_char s with
      | None => Raise IndexError
      | Some unit =>
          value ← py_int (but_last s);
          if bool_decide (unit = "m"%char) then timedelta value
          else if bool_decide (unit = "h"%char) then timedelta (60 * value)
          else timedelta (1440 * value)
      end
  | VList [] => Raise IndexError
  | VDict _ => Raise KeyError
  | _ => Raise TypeError
  end.

(** ** The store, the job queue and the transport *)

(** The Firestore collection ['schedules']: document id to document. *)
Abbreviation firestore := (gmap string pydict).

Definition INT64_MIN : Z := -9223372036854775808.
Definition INT64_MAX : Z := 9223372036854775807.

(** [firestore.Increment(d)] applied to a field: an integer field is
    added to (Firestore integers are 64-bit and saturate), any other
    field, or a missing one, is set to the operand. *)
Definition firestore_increment (field : option pyval) (d : Z) : pyval :=
  match field with
  | Some (VInt n) => VInt (Z.max INT64_MIN (Z.min INT64_MAX (n + d)))
  | _ => VInt d
  end.

(** A timer of [application.job_queue].  The callback is always
    [send_post]; [job_data] is the ["schedule_id"] entry of its data. *)
Inductive trigger :=
| Once (when : pyval)
| Repeating (interval : Z) (first : pyval).

Record job := Job {
  job_name : string;
  job_trigger : trigger;
  job_data : string
}.

Record app := App {
  db : firestore;
  job_queue : list job
}.

(** [job_queue.run_once] and [job_queue.run_repeating]: the queue keeps
    every job it is given; names need not be unique. *)
Definition add_job (j : job) (q : list job) : list job := q ++ [j].

Definition run_once (when : pyval) (name data : string) : job :=
  Job name (Once when) data.

Definition run_repeating (interval : Z) (first : pyval) (name data : string) : job :=
  Job name (Repeating interval first) data.

(** A request to the Telegram Bot API.  [reply_markup] is the column of
    URL buttons, one [(text, url)] per row, or [None]. *)
Abbreviation markup := (option (list (pyval * pyval))).

Inductive bot_call :=
| send_photo (chat_id photo caption : pyval) (reply_markup : markup)
| send_video (chat_id video caption : pyval) (reply_markup : markup)
| send_message (chat_id text : pyval) (reply_markup : markup)
| pin_chat_message (chat_id : pyval) (message_id : Z).

(** The transport answers a request with the id of the message it
    concerns, or fails ([None], a [TelegramError] in the program). *)
Definition transport := bot_call → option Z.

Definition call (bot : transport) (c : bot_call) : result Z :=
  match bot c with
  | Some message_id => Ok message_id
  | None => Raise TelegramError
  end.

Inductive log_line :=
| WarnNotFound (schedule_id : string)
| InfoSent (schedule_id : string)
| ErrorSendFailed (schedule_id : string) (e : exn)
| ErrorSaveFailed (e : exn).

(** ** The dispatcher: [send_post] (lines 51-91) *)

(** Line 68: one row per button, or no markup when there are no buttons. *)
Definition button_row (b : pyval) : result (pyval * pyval) :=
  match b with
  | VDict d => t ← py_getitem d "text"; u ← py_getitem d "url"; Ok (t, u)
  | _ => Raise TypeError
  end.

Definition build_reply_markup (buttons_data : pyval) : result markup :=
  if truthy buttons_data then
    match buttons_data with
    | VList bs => rows ← mapM button_row bs; Ok (Some rows)
    | _ => Raise TypeError
    end
  else Ok None.

(** Lines 71-79: the send, by media type. *)
Definition send_content (bot : transport) (post : pydict) (chat_id : pyval)
    (reply_markup : markup) : result Z :=
  let text := py_get post "text" (VStr "") in
  let media_file_id := py_get post "media_file_id" VNone in
  let media_type := py_get post "media_type" VNone in
  if py_eq_str media_type "photo" then
    call bot (send_photo chat_id media_file_id text reply_markup)
  else if py_eq_str media_type "video" then
    call bot (send_video chat_id media_file_id text reply_markup)
  else
    call bot (send_message chat_id text reply_markup).

(** Lines 81-82: the pin request. *)
Definition pin_if_requested (bot : transport) (post : pydict) (chat_id : pyval)
    (message_id : Z) : result unit :=
  if truthy (py_get post "pin_post" VNone) then
    _ ← call bot (pin_chat_message chat_id message_id); Ok ()
  else Ok ().

Definition is_not_none (v : pyval) : bool :=
  match v with VNone => false | _ => true end.

(** Lines 84-88: the mutation of the record after the send. *)
Definition post_send_mutation (schedule_id : string) (post : pydict)
    (d : firestore) : result firestore :=
  ty ← py_getitem post "type";
  if py_eq_str ty "agendada" then Ok (delete schedule_id d)
  else if is_not_none (py_get post "repetitions" VNone) then
    repetitions ← py_getitem post "repetitions";
    if py_eq_int repetitions 1 then Ok (delete schedule_id d)
    else if negb (py_eq_int repetitions 0) then
      Ok (<[schedule_id :=
             <["repetitions" := firestore_increment (post !! "repetitions") (-1)]> post]> d)
    else Ok d
  else Ok d.

(** Lines 81-88: what follows the send inside the [try] block. *)
Definition after_send (bot : transport) (schedule_id : string) (post : pydict)
    (chat_id : pyval) (message_id : Z) (d : firestore) : result firestore :=
  _ ← pin_if_requested bot post chat_id message_id;
  post_send_mutation schedule_id post d.

(** What a run of [send_post] leaves behind: the store, the log lines and
    the exception that escaped the function, if any. *)
Record fired := Fired {
  fired_db : firestore;
  fired_log : list log_line;
  fired_raised : option exn
}.

(** [send_post] for the job whose data names [schedule_id].  The
    assignment to [job.schedule_next_run_time] on line 59 is no
    operation of the job queue, and it does not go through: a
    [telegram.ext.Job] of the library version the imports require has
    [__slots__] and no [__dict__], so setting an attribute it does not
    declare raises [AttributeError], after the warning of line 58 and
    outside the [try]; store and queue are as before.  Lines 62-68 run
    before the [try]: their exceptions escape; everything from the send
    on is inside it: its exceptions are logged on line 91.  The store
    itself is taken to carry out [delete] and [update]. *)
Definition send_post (bot : transport) (schedule_id : string) (d : firestore) : fired :=
  match d !! schedule_id with
  | None => Fired d [WarnNotFound schedule_id] (Some AttributeError)
  | Some post =>
      match py_getitem post "chat_id" with
      | Raise e => Fired d [] (Some e)
      | Ok chat_id =>
          match build_reply_markup (py_get post "buttons" (VList [])) with
          | Raise e => Fired d [] (Some e)
          | Ok reply_markup =>
              match send_content bot post chat_id reply_markup with
              | Raise e => Fired d [ErrorSendFailed schedule_id e] None
              | Ok message_id =>
                  match after_send bot schedule_id post chat_id message_id d with
                  | Ok d' => Fired d' [InfoSent schedule_id] None
                  | Raise e =>
                      Fired d [InfoSent schedule_id; ErrorSendFailed schedule_id e] None
                  end
              end
          end
      end
  end.

(** Modelled from the spec: the timer queue is the library's, not the
    repository's.  Section 4.2: on every fire the scheduler invokes the
    dispatcher with the schedule id; a single-fire timer then disarms
    itself, a repeating timer stays armed whatever the outcome.  [fire i]
    fires the [i]-th job of the queue. *)
Definition fire (bot : transport) (i : nat) (a : app) : app :=
  match job_queue a !! i with
  | None => a
  | Some j =>
      let r := send_post bot (job_data j) (db a) in
      App (fired_db r)
          (match job_trigger j with
           | Once _ => delete i (job_queue a)
           | Repeating _ _ => job_queue a
           end)
  end.

(** ** The reconciler: [reload_jobs_from_db] (lines 93-121) *)

(** What one iteration of the loop does: arm a timer and count it as
    reloaded, delete the document and count it as deleted, or nothing. *)
Inductive reload_effect :=
| Rearm (j : job)
| Remove
| Untouched.

(** Lines 100-119 for one streamed document. *)
Definition reload_doc (current_time : Z) (schedule_id_str : string) (post : pydict)
    : result reload_effect :=
  ty ← py_getitem post "type";
  if py_eq_str ty "agendada" then
    let run_date := py_get post "scheduled_for" VNone in
    future ← (if truthy run_date then py_gt_time run_date current_time else Ok false);
    if (future : bool) then
      Ok (Rearm (run_once run_date schedule_id_str schedule_id_str))
    else if truthy run_date then Ok Remove
    else Ok Untouched
  else if py_eq_str ty "recorrente" then
    let start_date := py_get post "start_date" VNone in
    remaining ←
      (if truthy start_date then
         positive ← py_gt_int (py_get post "repetitions" (VInt 1)) 0;
         if (positive : bool) then Ok true
         else Ok (py_eq_int (py_get post "repetitions" VNone) 0)
       else Ok false);
    if (remaining : bool) then
      interval_str ← py_getitem post "interval";
      interval ← parse_interval interval_str;
      Ok (Rearm (run_repeating interval start_date schedule_id_str schedule_id_str))
    else Ok Untouched
  else Ok Untouched.

Record reload_state := ReloadState {
  rs_app : app;
  jobs_reloaded : nat;
  jobs_deleted : nat
}.

Definition apply_effect (schedule_id_str : string) (e : reload_effect)
    (st : reload_state) : reload_state :=
  match e with
  | Rearm j =>
      ReloadState (App (db (rs_app st)) (add_job j (job_queue (rs_app st))))
                  (S (jobs_reloaded st)) (jobs_deleted st)
  | Remove =>
      ReloadState (App (delete schedule_id_str (db (rs_app st))) (job_queue (rs_app st)))
                  (jobs_reloaded st) (S (jobs_deleted st))
  | Untouched => st
  end.

(** The loop over the streamed snapshot.  An exception leaves the loop
    with what the earlier iterations did. *)
Fixpoint reload_loop (current_time : Z) (docs : list (string * pydict))
    (st : reload_state) : reload_state * option exn :=
  match docs with
  | [] => (st, None)
  | (schedule_id_str, post) :: docs' =>
      match reload_doc current_time schedule_id_str post with
      | Ok e => reload_loop current_time docs' (apply_effect schedule_id_str e st)
      | Raise e => (st, Some e)
      end
  end.

(** [stream()] yields a snapshot of the collection: the documents are
    those present when the loop starts, each once.  The order is that of
    [map_to_list].  [main] does not start the application without a
    store, so the guard of line 94 is not taken. *)
Definition reload_jobs_from_db (current_time : Z) (a : app)
    : reload_state * option exn :=
  reload_loop current_time (map_to_list (db a)) (ReloadState a 0 0).

(** ** Updates, replies and the handler monad *)

(** An incoming message: a text that does not start with a bot command,
    a bot command ([/command] followed by [rest]), a photo (the file ids
    of its sizes) or a video. *)
Inductive message :=
| Text (text : string)
| Command (command rest : string)
| Photo (sizes : list string)
| Video (file_id : string).

Inductive update :=
| Message (user : Z) (m : message)
| CallbackQuery (user : Z) (data : string).

Definition effective_user (u : update) : Z :=
  match u with
  | Message user _ => user
  | CallbackQuery user _ => user
  end.

(** [message.text] *)
Definition message_text (m : message) : pyval :=
  match m with
  | Text s => VStr s
  | Command c rest => VStr ("/" +:+ c +:+ rest)
  | Photo _ | Video _ => VNone
  end.

(** What the bot tells the user; one constructor per message text of the
    source, in the order of the handlers. *)
Inductive reply :=
| AccessDeniedAlert          (* line 44 *)
| AccessDenied               (* line 45 *)
| QueryAnswered              (* line 127 *)
| AskChannel                 (* line 131 *)
| ChannelSaved               (* line 137 *)
| MediaSaved                 (* line 149 *)
| NoMedia                    (* line 156 *)
| TextSaved                  (* line 164 *)
| AskButtonText              (* line 172 *)
| NoButtons                  (* line 175 *)
| ButtonTextSaved            (* line 181 *)
| ButtonSaved                (* line 187 *)
| Understood                 (* line 193 *)
| AskScheduleTime            (* line 196 *)
| AskInterval                (* line 199 *)
| InvalidFormat              (* lines 210 and 233 *)
| IntervalSaved              (* line 216 *)
| RepetitionsSaved           (* line 222 *)
| Summary (data : pydict)    (* line 257 *)
| AskConfirmation            (* line 259 *)
| Created                    (* line 282 *)
| SaveFailed                 (* line 287 *)
| Cancelled                  (* line 295 *)
| MainMenu.                  (* line 315 *)

Inductive output :=
| Reply (r : reply)
| Logged (l : log_line).

(** What a handler works on: the user's [context.user_data] and the
    application (store and job queue). *)
Record context := Context {
  user_data : pydict;
  application : app
}.

(** A handler body: it may change the context, produces output, and
    returns or raises.  An exception keeps the changes made before it. *)
Definition act (A : Type) : Type := context → result A * context * list output.

#[global] Instance act_ret : MRet act := λ A a c, (Ok a, c, []).
#[global] Instance act_bind : MBind act :=
  λ A B k m c,
    match m c with
    | (Ok a, c', out) => let '(r, c'', out') := k a c' in (r, c'', out ++ out')
    | (Raise e, c', out) => (Raise e, c', out)
    end.

Definition raise {A} (e : exn) : act A := λ c, (Raise e, c, []).

Definition lift {A} (r : result A) : act A := λ c, (r, c, []).

Definition say (r : reply) : act unit := λ c, (Ok (), c, [Reply r]).

Definition log (l : log_line) : act unit := λ c, (Ok (), c, [Logged l]).

Definition read : act pydict := λ c, (Ok (user_data c), c, []).

Definition write (d : pydict) : act unit :=
  λ c, (Ok (), Context d (application c), []).

(** [context.user_data[k] = v], [context.user_data[k]] and
    [context.user_data.clear()] *)
Definition setitem (k : string) (v : pyval) : act unit :=
  d ← read; write (<[k := v]> d).

Definition getitem (k : string) : act pyval :=
  d ← read; lift (py_getitem d k).

Definition clear : act unit := write ∅.

(** [try: body except <catches>: handler] *)
Definition try_except {A} (body : act A) (catches : exn → bool)
    (handler : exn → act A) : act A :=
  λ c,
    match body c with
    | (Raise e, c', out) =>
        if catches e then
          let '(r, c'', out') := handler e c' in (r, c'', out ++ out')
        else (Raise e, c', out)
    | done => done
    end.

(** [update.message] is [None] for a callback query, and
    [update.callback_query] is [None] for a message: using either then
    raises [AttributeError]. *)
Definition the_message (u : update) : act message :=
  match u with
  | Message _ m => mret m
  | CallbackQuery _ _ => raise AttributeError
  end.

Definition the_query (u : update) : act string :=
  match u with
  | CallbackQuery _ data => mret data
  | Message _ _ => raise AttributeError
  end.

(** [await update.message.reply_text(...)] *)
Definition reply_text (u : update) (r : reply) : act unit :=
  _ ← the_message u; say r.

(** [update.message.text] and [update.message.text.lower()] *)
Definition update_text (u : update) : act pyval :=
  m ← the_message u; mret (message_text m).

Definition py_lower (v : pyval) : result string :=
  match v with
  | VStr s => Ok (lower s)
  | _ => Raise AttributeError
  end.

(** ** Conversation states (lines 34-36) *)

Inductive conv_state :=
| AWAITING_CHANNEL | AWAITING_MEDIA | AWAITING_TEXT | AWAITING_BUTTON_PROMPT
| AWAITING_BUTTON_TEXT | AWAITING_BUTTON_URL | AWAITING_PIN_OPTION
| AWAITING_SCHEDULE_TIME | AWAITING_INTERVAL | AWAITING_REPETITIONS
| AWAITING_START_TIME | AWAITING_CONFIRMATION.

(** What a handler returns: a state, or [ConversationHandler.END]. *)
Inductive next :=
| To (s : conv_state)
| END.

(** A callback returns [Some n], or [None] when it ends without a
    value. *)
Definition handler : Type := update → act (option next).

(** [collection('schedules').add(data)]: the store answers with the id
    of the new document and the server time, or fails ([None]: the
    request failed or the data cannot be stored).  The server puts its
    time where the data has the [SERVER_TIMESTAMP] sentinel. *)
Definition resolve_timestamp (now : Z) (v : pyval) : pyval :=
  match v with
  | VServerTimestamp => VTime now
  | _ => v
  end.

Definition firestore_add (answer : option (string * Z)) (data : pydict)
    (d : firestore) : result (string * firestore) :=
  match answer with
  | None => Raise StoreError
  | Some (new_id, now) =>
      match d !! new_id with
      | Some _ => Raise StoreError
      | None => Ok (new_id, <[new_id := resolve_timestamp now <$> data]> d)
      end
  end.

Definition collection_add (answer : option (string * Z)) : act string :=
  λ c,
    match firestore_add answer (user_data c) (db (application c)) with
    | Ok (new_id, d') =>
        (Ok new_id, Context (user_data c) (App d' (job_queue (application c))), [])
    | Raise e => (Raise e, c, [])
    end.

(** [context.application.job_queue.run_once / run_repeating] *)
Definition arm (j : job) : act unit :=
  λ c,
    (Ok (),
     Context (user_data c)
             (App (db (application c)) (add_job j (job_queue (application c)))),
     []).

(** [show_main_menu(update, context, is_new_message=True)], line 315. *)
Definition show_main_menu : act unit := say MainMenu.

(** ** The dialogue (lines 39-48 and 124-297) *)

Section Dialogue.

(** The allow-list, read from the environment on line 20. *)
Variable ADMIN_IDS : list Z.

(** [SAO_PAULO_TZ.localize(datetime.strptime(text, '%d/%m/%Y %H:%M'))]:
    the instant the civil time denotes, or [None] where [strptime]
    raises [ValueError]. *)
Variable localize_strptime : string → option Z.

Definition parse_time (text : pyval) : result pyval :=
  match text with
  | VStr s =>
      match localize_strptime s with
      | Some t => Ok (VTime t)
      | None => Raise ValueError
      end
  | _ => Raise TypeError
  end.

(** The decorator, lines 39-48. *)
Definition restricted (func : handler) : handler :=
  λ update,
    let user_id := effective_user update in
    if bool_decide (user_id ∉ ADMIN_IDS) then
      _ ← (match update with
           | CallbackQuery _ _ => say AccessDeniedAlert
           | Message _ _ => say AccessDenied
           end);
      mret None
    else func update.

Definition start_schedule_flow : handler :=
  restricted (λ update,
    data ← the_query update;
    _ ← say QueryAnswered;
    let schedule_type :=
      if index 0 "single" data is Some _ then "agendada" else "recorrente" in
    _ ← clear;
    _ ← setitem "type" (VStr schedule_type);
    _ ← say AskChannel;
    mret (Some (To AWAITING_CHANNEL))).

Definition get_channel : handler :=
  restricted (λ update,
    text ← update_text update;
    _ ← setitem "chat_id" text;
    _ ← reply_text update ChannelSaved;
    mret (Some (To AWAITING_MEDIA))).

Definition get_media : handler :=
  restricted (λ update,
    message ← the_message update;
    _ ← (match message with
         | Photo (size :: sizes) =>
             _ ← setitem "media_file_id" (VStr (List.last sizes size));
             setitem "media_type" (VStr "photo")
         | Video file_id =>
             _ ← setitem "media_file_id" (VStr file_id);
             setitem "media_type" (VStr "video")
         | _ => mret ()
         end);
    _ ← reply_text update MediaSaved;
    mret (Some (To AWAITING_TEXT))).

Definition skip_media : handler :=
  restricted (λ update,
    _ ← setitem "media_file_id" VNone;
    _ ← setitem "media_type" VNone;
    _ ← reply_text update NoMedia;
    mret (Some (To AWAITING_TEXT))).

Definition get_text : handler :=
  restricted (λ update,
    text ← update_text update;
    _ ← setitem "text" text;
    _ ← reply_text update TextSaved;
    mret (Some (To AWAITING_BUTTON_PROMPT))).

Definition get_button_prompt : handler :=
  restricted (λ update,
    text ← update_text update;
    lowered ← lift (py_lower text);
    if bool_decide (lowered = "sim") then
      _ ← reply_text update AskButtonText;
      mret (Some (To AWAITING_BUTTON_TEXT))
    else
      _ ← reply_text update NoButtons;
      mret (Some (To AWAITING_PIN_OPTION))).

(** Line 180: [setdefault] creates the list when it is missing, then the
    button is appended to the list the dictionary holds. *)
Definition get_button_text : handler :=
  restricted (λ update,
    d ← read;
    _ ← (if d !! "buttons" is Some _ then mret () else setitem "buttons" (VList []));
    buttons ← getitem "buttons";
    text ← update_text update;
    _ ← (match buttons with
         | VList bs => setitem "buttons" (VList (bs ++ [VDict {["text" := text]}]))
         | _ => raise AttributeError
         end);
    _ ← reply_text update ButtonTextSaved;
    mret (Some (To AWAITING_BUTTON_URL))).

(** Line 186: the last button of the list gets its URL. *)
Definition get_button_url : handler :=
  restricted (λ update,
    text ← update_text update;
    buttons ← getitem "buttons";
    _ ← (match buttons with
         | VList bs =>
             match reverse bs with
             | [] => raise IndexError
             | VDict b :: before =>
                 setitem "buttons" (VList (reverse before ++ [VDict (<["url" := text]> b)]))
             | _ :: _ => raise TypeError
             end
         | VDict _ => raise KeyError
         | VStr "" => raise IndexError
         | _ => raise TypeError
         end);
    _ ← reply_text update ButtonSaved;
    mret (Some (To AWAITING_PIN_OPTION))).

Definition get_pin_option : handler :=
  restricted (λ update,
    text ← update_text update;
    lowered ← lift (py_lower text);
    _ ← setitem "pin_post" (VBool (bool_decide (lowered = "sim")));
    _ ← reply_text update Understood;
    ty ← getitem "type";
    if py_eq_str ty "agendada" then
      _ ← reply_text update AskScheduleTime;
      mret (Some (To AWAITING_SCHEDULE_TIME))
    else
      _ ← reply_text update AskInterval;
      mret (Some (To AWAITING_INTERVAL))).

(** [v.capitalize()] and [v.strftime(...)] exist on strings and on
    datetimes only; [len(v)] on containers and strings. *)
Definition needs_str (v : pyval) : result unit :=
  match v with VStr _ => Ok () | _ => Raise AttributeError end.

Definition needs_time (v : pyval) : result unit :=
  match v with VTime _ => Ok () | _ => Raise AttributeError end.

Definition needs_len (v : pyval) : result unit :=
  match v with VStr _ | VList _ | VDict _ => Ok () | _ => Raise TypeError end.

(** Lines 236-261.  The summary text is a function of the draft; the
    model keeps the draft it was made from. *)
Definition confirm_schedule (update : update) : act unit :=
  data ← read;
  ty ← getitem "type";
  _ ← lift (needs_str ty);
  _ ← getitem "chat_id";
  _ ← (if truthy (py_get data "media_type" VNone)
       then media_type ← getitem "media_type"; lift (needs_str media_type)
       else mret ());
  _ ← (if truthy (py_get data "buttons" VNone)
       then buttons ← getitem "buttons"; lift (needs_len buttons)
       else mret ());
  _ ← (if py_eq_str ty "agendada"
       then lift (needs_time (py_get data "scheduled_for" VNone))
       else lift (needs_time (py_get data "start_date" VNone)));
  _ ← reply_text update (Summary data);
  reply_text update AskConfirmation.

Definition is_ValueError (e : exn) : bool :=
  match e with ValueError => true | _ => false end.

Definition get_schedule_time : handler :=
  restricted (λ update,
    try_except
      (text ← update_text update;
       when ← lift (parse_time text);
       _ ← setitem "scheduled_for" when;
       _ ← confirm_schedule update;
       mret (Some (To AWAITING_CONFIRMATION)))
      is_ValueError
      (λ _,
       _ ← reply_text update InvalidFormat;
       mret (Some (To AWAITING_SCHEDULE_TIME)))).

Definition get_interval : handler :=
  restricted (λ update,
    text ← update_text update;
    lowered ← lift (py_lower text);
    _ ← setitem "interval" (VStr lowered);
    _ ← reply_text update IntervalSaved;
    mret (Some (To AWAITING_REPETITIONS))).

Definition py_int_of (v : pyval) : result Z :=
  match v with
  | VStr s => py_int s
  | VInt n => Ok n
  | VBool b => Ok (if b then 1 else 0)
  | _ => Raise TypeError
  end.

Definition get_repetitions : handler :=
  restricted (λ update,
    text ← update_text update;
    n ← lift (py_int_of text);
    _ ← setitem "repetitions" (VInt n);
    _ ← reply_text update RepetitionsSaved;
    mret (Some (To AWAITING_START_TIME))).

Definition get_start_time : handler :=
  restricted (λ update,
    try_except
      (text ← update_text update;
       when ← lift (parse_time text);
       _ ← setitem "start_date" when;
       _ ← confirm_schedule update;
       mret (Some (To AWAITING_CONFIRMATION)))
      is_ValueError
      (λ _,
       _ ← reply_text update InvalidFormat;
       mret (Some (To AWAITING_START_TIME)))).

(** Lines 263-290.  [answer] is what the store answers to the [add]. *)
Definition save_schedule (answer : option (string * Z)) : handler :=
  restricted (λ update,
    _ ← try_except
      (_ ← setitem "created_at" VServerTimestamp;
       _ ← setitem "user_id" (VInt (effective_user update));
       schedule_id ← collection_add answer;
       ty ← getitem "type";
       _ ← (if py_eq_str ty "agendada" then
              when ← getitem "scheduled_for";
              arm (run_once when schedule_id schedule_id)
            else
              interval_str ← getitem "interval";
              interval ← lift (parse_interval interval_str);
              first ← getitem "start_date";
              arm (run_repeating interval first schedule_id schedule_id));
       _ ← reply_text update Created;
       show_main_menu)
      (λ _, true)
      (λ e,
       _ ← log (ErrorSaveFailed e);
       reply_text update SaveFailed);
    _ ← clear;
    mret (Some END)).

Definition cancel : handler :=
  restricted (λ update,
    _ ← clear;
    _ ← reply_text update Cancelled;
    _ ← show_main_menu;
    mret (Some END)).

(** ** The conversation table (lines 368-386) *)

(** A registered handler: the check it makes on an update, and its
    callback. *)
Definition registration : Type := (update → bool) * handler.

(** [filters.TEXT & ~filters.COMMAND] *)
Definition TEXT_not_COMMAND (m : message) : bool :=
  match m with
  | Text s => negb (bool_decide (s = ""))
  | _ => false
  end.

(** [filters.PHOTO | filters.VIDEO] *)
Definition PHOTO_or_VIDEO (m : message) : bool :=
  match m with
  | Photo sizes => match sizes with [] => false | _ => true end
  | Video _ => true
  | _ => false
  end.

(** [filters.Regex(p)] searches the text of the message.  The patterns
    of the table are anchored: [^(a|b)$] holds of the alternatives
    themselves and of an alternative followed by one final newline. *)
Definition Regex (matches : string → bool) (m : message) : bool :=
  match message_text m with
  | VStr s => matches s
  | _ => false
  end.

Definition whole_line (alternatives : list string) (s : string) : bool :=
  existsb (λ a, bool_decide (s = a) || bool_decide (s = a +:+ LF)) alternatives.

(** [$] also matches just before a newline that ends the text. *)
Fixpoint chop_newline (l : list ascii) : list ascii :=
  match l with
  | [] => []
  | [c] => if bool_decide (c = "010"%char) then [] else [c]
  | c :: l' => c :: chop_newline l'
  end.

(** [^\d+$], on the ASCII digits. *)
Definition digits_line (s : string) : bool :=
  match chop_newline (list_ascii_of_string s) with
  | [] => false
  | l => forallb is_digit l
  end.

Definition MessageHandler (f : message → bool) (callback : handler) : registration :=
  (λ u, match u with Message _ m => f m | CallbackQuery _ _ => false end, callback).

(** A command handler compares the command in lower case. *)
Definition CommandHandler (command : string) (callback : handler) : registration :=
  (λ u, match u with
        | Message _ (Command c _) => bool_decide (lower c = command)
        | _ => false
        end, callback).

(** A callback-query handler matches its pattern at the start of the
    data; the patterns of the table are literal. *)
Definition CallbackQueryHandler (pattern : string) (callback : handler) : registration :=
  (λ u, match u with
        | CallbackQuery _ data => String.prefix pattern data
        | Message _ _ => false
        end, callback).

Definition entry_points : list registration :=
  [CallbackQueryHandler "start_schedule_" start_schedule_flow].

Definition states (answer : option (string * Z)) (s : conv_state) : list registration :=
  match s with
  | AWAITING_CHANNEL => [MessageHandler TEXT_not_COMMAND get_channel]
  | AWAITING_MEDIA =>
      [MessageHandler PHOTO_or_VIDEO get_media; CommandHandler "pular" skip_media]
  | AWAITING_TEXT => [MessageHandler TEXT_not_COMMAND get_text]
  | AWAITING_BUTTON_PROMPT =>
      [MessageHandler (Regex (whole_line ["Sim"; "Não"])) get_button_prompt]
  | AWAITING_BUTTON_TEXT => [MessageHandler TEXT_not_COMMAND get_button_text]
  | AWAITING_BUTTON_URL => [MessageHandler TEXT_not_COMMAND get_button_url]
  | AWAITING_PIN_OPTION =>
      [MessageHandler (Regex (whole_line ["Sim"; "Não"])) get_pin_option]
  | AWAITING_SCHEDULE_TIME => [MessageHandler TEXT_not_COMMAND get_schedule_time]
  | AWAITING_INTERVAL => [MessageHandler TEXT_not_COMMAND get_interval]
  | AWAITING_REPETITIONS => [MessageHandler (Regex digits_line) get_repetitions]
  | AWAITING_START_TIME => [MessageHandler TEXT_not_COMMAND get_start_time]
  | AWAITING_CONFIRMATION =>
      [MessageHandler (Regex (whole_line ["✅ Confirmar"])) (save_schedule answer)]
  end.

Definition fallbacks : list registration :=
  [CommandHandler "cancel" cancel;
   MessageHandler (Regex (whole_line ["❌ Cancelar"])) cancel].

(** The first registered handler whose check accepts the update. *)
Definition first_match (hs : list registration) (u : update) : option handler :=
  snd <$> List.find (λ h, fst h u) hs.

(** How a [ConversationHandler] chooses the callback: outside a
    conversation the entry points; inside one the handlers of the
    current state and, only when none of them accepts the update, the
    fallbacks. *)
Definition conv_handler (answer : option (string * Z))
    (state : option conv_state) (u : update) : option handler :=
  match state with
  | None => first_match entry_points u
  | Some s =>
      match first_match (states answer s) u with
      | Some callback => Some callback
      | None => first_match fallbacks u
      end
  end.

(** One user's dialogue: the state of the conversation ([None] outside
    one) and the context.  The library keeps one state and one
    [user_data] per user; an update only reaches those of its sender. *)
Record dialogue := Dialogue {
  conversation : option conv_state;
  ctx : context
}.

(** The state after a callback: a returned state is entered, [END]
    leaves the conversation, and a callback that returns nothing or
    raises leaves the state as it is. *)
Definition next_state (state : option conv_state) (r : result (option next))
    : option conv_state :=
  match r with
  | Ok (Some (To s)) => Some s
  | Ok (Some END) => None
  | Ok None | Raise _ => state
  end.

(** One update through the conversation handler.  An update it does not
    take goes to the other handlers of [main] ([start_command],
    [list_schedules], [back_to_main_menu]), which write neither
    [user_data], the store nor the queue; their output is left out. *)
Definition process_update (answer : option (string * Z)) (u : update)
    (dlg : dialogue) : dialogue * list output :=
  match conv_handler answer (conversation dlg) u with
  | None => (dlg, [])
  | Some callback =>
      let '(r, c', out) := callback u (ctx dlg) in
      (Dialogue (next_state (conversation dlg) r) c', out)
  end.

End Dialogue.

(** ** Derived notions used in the statements *)

(** The timer one streamed document makes the reconciler arm, and
    whether it makes the reconciler delete the document. *)
Definition armed_by (current_time : Z) (x : string * pydict) : option job :=
  match reload_doc current_time x.1 x.2 with
  | Ok (Rearm j) => Some j
  | _ => None
  end.

Definition removed_by (current_time : Z) (x : string * pydict) : bool :=
  match reload_doc current_time x.1 x.2 with
  | Ok Remove => true
  | _ => false
  end.

Definition succeeds (current_time : Z) (x : string * pydict) : Prop :=
  ∃ e, reload_doc current_time x.1 x.2 = Ok e.

Definition removed_ids (current_time : Z) (docs : list (string * pydict)) : list string :=
  (filter (λ x, removed_by current_time x = true) docs).*1.

(** The timers a pass of the reconciler arms and the documents it
    deletes, for the store of [a] at [current_time]. *)
Definition rearmed (current_time : Z) (a : app) : list job :=
  omap (armed_by current_time) (map_to_list (db a)).

Definition removed (current_time : Z) (a : app) : list string :=
  removed_ids current_time (map_to_list (db a)).

(** The answer [restricted] gives to a caller who is not on the
    allow-list (lines 44-45). *)
Definition denial (u : update) : reply :=
  match u with
  | CallbackQuery _ _ => AccessDeniedAlert
  | Message _ _ => AccessDenied
  end.

(** A callback of the conversation table is one the decorator guards. *)
Definition guarded (ADMIN_IDS : list Z) (h : registration) : Prop :=
  ∃ func, snd h = restricted ADMIN_IDS func.

(** The shape section 4.1 of the specification asks of an interval:
    an integer followed by one of the units m, h, d. *)
Definition spec_interval_shape (s : string) : bool :=
  match last_char s with
  | Some unit =>
      (bool_decide (unit = "m"%char) || bool_decide (unit = "h"%char)
       || bool_decide (unit = "d"%char))
      && match list_ascii_of_string (but_last s) with
         | [] => false
         | l => forallb is_digit l
         end
  | None => false
  end.

(** A run of updates through the dialogue, each with the answer the
    store gives during it. *)
Definition process_updates (ADMIN_IDS : list Z) (localize_strptime : string → option Z)
    (steps : list (option (string * Z) * update)) (dlg : dialogue) : dialogue :=
  foldl (λ d step, fst (process_update ADMIN_IDS localize_strptime step.1 step.2 d))
        dlg steps.

(** The states whose own handlers leave the cancel token to the
    fallbacks. *)
Definition token_cancels (s : conv_state) : bool :=
  match s with
  | AWAITING_MEDIA | AWAITING_BUTTON_PROMPT | AWAITING_PIN_OPTION
  | AWAITING_REPETITIONS | AWAITING_CONFIRMATION => true
  | _ => false
  end.

(** ** Sample data *)

(** A transport on which every request succeeds, and one that sends but
    cannot pin, and one that cannot send. *)
Definition bot_up : transport := λ _, Some 7.

Definition bot_no_pin : transport :=
  λ c, match c with pin_chat_message _ _ => None | _ => Some 7 end.

Definition bot_down : transport := λ _, None.

Definition one_shot_post (fire_at : Z) (pin : bool) : pydict :=
  list_to_map
    [("type", VStr "agendada"); ("chat_id", VStr "@channel1");
     ("text", VStr "Hello"); ("media_file_id", VNone); ("media_type", VNone);
     ("pin_post", VBool pin); ("scheduled_for", VTime fire_at)].

(** The draft of scenario A of the specification, before the fire time
    is asked, and the complete draft of scenario B. *)
Definition one_shot_draft : pydict :=
  list_to_map
    [("type", VStr "agendada"); ("chat_id", VStr "@channel1");
     ("text", VStr "Hello"); ("media_file_id", VNone); ("media_type", VNone);
     ("pin_post", VBool false)].

Definition recurring_draft : pydict :=
  list_to_map
    [("type", VStr "recorrente"); ("chat_id", VStr "@channel1");
     ("text", VStr "Hello"); ("media_file_id", VStr "AgAD"); ("media_type", VStr "photo");
     ("buttons", VList [VDict (list_to_map [("text", VStr "Site"); ("url", VStr "https://example.org")])]);
     ("pin_post", VBool true); ("interval", VStr "30m"); ("repetitions", VInt 3);
     ("start_date", VTime 480)].

Definition no_times : string → option Z := λ _, None.

(** A clock that knows one civil time: 01/01/2030 10:00 in São Paulo,
    in minutes since the epoch. *)
Definition sample_times : string → option Z :=
  λ s, if bool_decide (s = "01/01/2030 10:00") then Some 31558380 else None.

(** A transport that accepts one request only: the text [Hello] for
    [@channel1], without buttons. *)
Definition bot_hello : transport :=
  λ c, match c with
       | send_message (VStr "@channel1") (VStr "Hello") None => Some 7
       | _ => None
       end.

(** A recurring draft whose interval is the text [abc], as the dialogue
    leaves it before the confirmation. *)
Definition abc_draft : pydict :=
  list_to_map
    [("type", VStr "recorrente"); ("chat_id", VStr "@channel1");
     ("text", VStr "Hello"); ("media_file_id", VNone); ("media_type", VNone);
     ("pin_post", VBool false); ("interval", VStr "abc"); ("repetitions", VInt 3);
     ("start_date", VTime 480)].

Definition recurring_post (repetitions : option Z) : pydict :=
  list_to_map
    ([("type", VStr "recorrente"); ("chat_id", VStr "@channel1");
      ("text", VStr "Hello"); ("media_file_id", VNone); ("media_type", VNone);
      ("pin_post", VBool false); ("interval", VStr "30m");
      ("start_date", VTime 480)]
     ++ match repetitions with
        | Some n => [("repetitions", VInt n)]
        | None => []
        end).

(** ** Further notions used in the statements *)

(** The store after one fire of the timer of [schedule_id], and after
    [k] fires in a row. *)
Definition fire_record (bot : transport) (schedule_id : string) (d : firestore)
    : firestore :=
  fired_db (send_post bot schedule_id d).

Definition fire_records (bot : transport) (schedule_id : string) (k : nat)
    (d : firestore) : firestore :=
  Nat.iter k (fire_record bot schedule_id) d.

(** The confirmation of a draft by [user]: the confirm token sent in
    AWAITING_CONFIRMATION. *)
Definition commit (ADMIN_IDS : list Z) (localize_strptime : string → option Z)
    (answer : option (string * Z)) (user : Z) (c : context) : dialogue * list output :=
  process_update ADMIN_IDS localize_strptime answer
    (Message user (Text "✅ Confirmar")) (Dialogue (Some AWAITING_CONFIRMATION) c).

(** A draft the summary of [confirm_schedule] can be made of: a type
    and a target, no media type or a text as media type, no buttons or a
    list of buttons. *)
Definition summarisable (data : pydict) (ty : string) : Prop :=
  data !! "type" = Some (VStr ty) ∧
  is_Some (data !! "chat_id") ∧
  (truthy (py_get data "media_type" VNone) = false ∨
   ∃ s, data !! "media_type" = Some (VStr s)) ∧
  (truthy (py_get data "buttons" VNone) = false ∨
   ∃ bs, data !! "buttons" = Some (VList bs)).

(** A text of decimal digits. *)
Definition all_digits (l : list ascii) : Prop := Forall (λ c, is_digit c = true) l.

(** The callback data of the buttons of the main menu (lines 301-305):
    one-shot, recurring, list. *)
Definition main_menu_callbacks : list string :=
  ["start_schedule_single"; "start_schedule_recurrent"; "list_schedules"].

(** The button the dialogue collects: its label and then its URL. *)
Definition url_button (label url : string) : pyval :=
  VDict (<["url" := VStr url]> {["text" := VStr label]}).

(** The updates of a one-shot dialogue for a text without medium or
    button, from the start button to the confirmation; only the
    confirmation reaches the store.  [one_shot_record] is the document
    they make. *)
Definition one_shot_dialogue (user : Z) (answer : option (string * Z))
    (channel text : string) (pin : bool) (when : string)
    : list (option (string * Z) * update) :=
  [(None, CallbackQuery user "start_schedule_single");
   (None, Message user (Text channel));
   (None, Message user (Command "pular" ""));
   (None, Message user (Text text));
   (None, Message user (Text "Não"));
   (None, Message user (Text (if pin then "Sim" else "Não")));
   (None, Message user (Text when));
   (answer, Message user (Text "✅ Confirmar"))].

Definition one_shot_record (user : Z) (channel text : string) (pin : bool)
    (fire_at now : Z) : pydict :=
  <["user_id" := VInt user]>
    (<["created_at" := VTime now]>
       (<["scheduled_for" := VTime fire_at]>
          (<["pin_post" := VBool pin]>
             (<["text" := VStr text]>
                (<["media_type" := VNone]>
                   (<["media_file_id" := VNone]>
                      (<["chat_id" := VStr channel]>
                         (<["type" := VStr "agendada"]> ∅)))))))).

(** The updates of a recurring dialogue for a photo with a caption and
    one button, and the document they make. *)
Definition recurring_dialogue (user : Z) (answer : option (string * Z))
    (channel : string) (size : string) (sizes : list string)
    (text label url : string) (pin : bool) (interval repetitions start : string)
    : list (option (string * Z) * update) :=
  [(None, CallbackQuery user "start_schedule_recurrent");
   (None, Message user (Text channel));
   (None, Message user (Photo (size :: sizes)));
   (None, Message user (Text text));
   (None, Message user (Text "Sim"));
   (None, Message user (Text label));
   (None, Message user (Text url));
   (None, Message user (Text (if pin then "Sim" else "Não")));
   (None, Message user (Text interval));
   (None, Message user (Text repetitions));
   (None, Message user (Text start));
   (answer, Message user (Text "✅ Confirmar"))].

Definition recurring_record (user : Z) (channel file_id text label url : string)
    (pin : bool) (interval : string) (repetitions first now : Z) : pydict :=
  <["user_id" := VInt user]>
    (<["created_at" := VTime now]>
       (<["start_date" := VTime first]>
          (<["repetitions" := VInt repetitions]>
             (<["interval" := VStr interval]>
                (<["pin_post" := VBool pin]>
                   (<["buttons" := VList [url_button label url]]>
                      (<["text" := VStr text]>
                         (<["media_type" := VStr "photo"]>
                            (<["media_file_id" := VStr file_id]>
                               (<["chat_id" := VStr channel]>
                                  (<["type" := VStr "recorrente"]> ∅))))))))))).

(** * Properties *)

(** ** Worked examples of the helpers *)

Example parse_interval_30m : parse_interval (VStr "30m") = Ok 30.
Proof. reflexivity. Qed.

Example parse_interval_12h : parse_interval (VStr "12h") = Ok 720.
Proof. reflexivity. Qed.

Example parse_interval_1d : parse_interval (VStr "1d") = Ok 1440.
Proof. reflexivity. Qed.

Example parse_interval_abc : parse_interval (VStr "abc") = Raise ValueError.
Proof. reflexivity. Qed.

Example lower_30M : lower "30M" = "30m".
Proof. reflexivity. Qed.

Example py_int_padded : py_int (" 1_000" +:+ LF) = Ok 1000.
Proof. reflexivity. Qed.

Example digits_line_12 :
  digits_line "12" = true ∧ digits_line ("12" +:+ LF) = true ∧
  digits_line "1a" = false ∧ digits_line LF = false.
Proof. repeat split; reflexivity. Qed.

(** ** The dispatcher *)

Ltac run_result := unfold mbind, result_bind, mret, result_ret; simpl.

(** The shape of a run of [send_post] whose send went through. *)
Lemma send_post_sent bot id d post chat_id rm mid :
  d !! id = Some post →
  post !! "chat_id" = Some chat_id →
  build_reply_markup (py_get post "buttons" (VList [])) = Ok rm →
  send_content bot post chat_id rm = Ok mid →
  send_post bot id d =
    match after_send bot id post chat_id mid d with
    | Ok d' => Fired d' [InfoSent id] None
    | Raise e => Fired d [InfoSent id; ErrorSendFailed id e] None
    end.
Proof.
  intros Hd Hchat Hrm Hsend. unfold send_post, py_getitem.
  by rewrite Hd, Hchat, Hrm, Hsend.
Qed.

Lemma after_send_pinned bot id post chat_id mid d :
  pin_if_requested bot post chat_id mid = Ok () →
  after_send bot id post chat_id mid d = post_send_mutation id post d.
Proof. intros Hpin. unfold after_send. by rewrite Hpin. Qed.

Lemma after_send_pin_failed bot id post chat_id mid d e :
  pin_if_requested bot post chat_id mid = Raise e →
  after_send bot id post chat_id mid d = Raise e.
Proof. intros Hpin. unfold after_send. by rewrite Hpin. Qed.

(** The mutation of a recurring record, by its count. *)
Lemma post_send_mutation_recurring id post d n :
  post !! "type" = Some (VStr "recorrente") →
  post !! "repetitions" = Some (VInt n) →
  n ≤ INT64_MAX →
  post_send_mutation id post d =
    Ok (if n =? 1 then delete id d
        else if n =? 0 then d
        else <[id := <["repetitions" := VInt (Z.max INT64_MIN (n - 1))]> post]> d).
Proof.
  intros Hty Hrep Hmax. unfold post_send_mutation, py_getitem, py_get.
  rewrite Hty, Hrep. run_result.
  destruct (n =? 1) eqn:H1; [done|].
  destruct (n =? 0) eqn:H0; [done|]. simpl.
  do 3 f_equal. unfold INT64_MAX in *. f_equal. f_equal. lia.
Qed.

Lemma post_send_mutation_one_shot id post d :
  post !! "type" = Some (VStr "agendada") →
  post_send_mutation id post d = Ok (delete id d).
Proof. intros Hty. unfold post_send_mutation, py_getitem. by rewrite Hty. Qed.


(** C1.  One successful fire of a RECURRING record (the send and the pin
    request, when one is made, succeed) with count [n]: for [n > 1] the
    record stays with its count lowered by exactly one, for [n = 1] it
    is deleted, for [n = 0] the store is left as it is.  Nothing else in
    the store changes, and no exception escapes. *)
Theorem recurring_fire_mutation bot id d post chat_id rm mid n :
  d !! id = Some post →
  post !! "type" = Some (VStr "recorrente") →
  post !! "repetitions" = Some (VInt n) →
  n ≤ INT64_MAX →
  post !! "chat_id" = Some chat_id →
  build_reply_markup (py_get post "buttons" (VList [])) = Ok rm →
  send_content bot post chat_id rm = Ok mid →
  pin_if_requested bot post chat_id mid = Ok () →
  (1 < n →
     send_post bot id d =
       Fired (<[id := <["repetitions" := VInt (n - 1)]> post]> d) [InfoSent id] None ∧
     fired_db (send_post bot id d) !! id = Some (<["repetitions" := VInt (n - 1)]> post)) ∧
  (n = 1 →
     send_post bot id d = Fired (delete id d) [InfoSent id] None ∧
     fired_db (send_post bot id d) !! id = None) ∧
  (n = 0 →
     send_post bot id d = Fired d [InfoSent id] None ∧
     fired_db (send_post bot id d) !! id = Some post).
Proof.
  intros Hd Hty Hrep Hmax Hchat Hrm Hsend Hpin.
  rewrite (send_post_sent _ _ _ _ _ _ _ Hd Hchat Hrm Hsend).
  rewrite (after_send_pinned _ _ _ _ _ _ Hpin).
  rewrite (post_send_mutation_recurring _ _ _ _ Hty Hrep Hmax).
  split; [|split]; intros Hn.
  - assert ((n =? 1) = false) as -> by lia.
    assert ((n =? 0) = false) as -> by lia.
    assert (Z.max INT64_MIN (n - 1) = n - 1) as -> by (unfold INT64_MIN; lia).
    simpl. split; [done|]. by rewrite lookup_insert_eq.
  - subst n. simpl. split; [done|]. by rewrite lookup_delete_eq.
  - subst n. simpl. done.
Qed.

Lemma recurring_fire_mutation_witness :
  send_post bot_up "a" {[ "a" := recurring_post (Some 3) ]} =
    Fired (<["a" := <["repetitions" := VInt (3 - 1)]> (recurring_post (Some 3))]>
             {[ "a" := recurring_post (Some 3) ]})
          [InfoSent "a"] None ∧
  send_post bot_up "a" {[ "a" := recurring_post (Some 1) ]} =
    Fired (delete "a" {[ "a" := recurring_post (Some 1) ]}) [InfoSent "a"] None ∧
  send_post bot_up "a" {[ "a" := recurring_post (Some 0) ]} =
    Fired {[ "a" := recurring_post (Some 0) ]} [InfoSent "a"] None.
Proof.
  assert (1 < 3) as Hmany by lia.
  split; [|split].
  - refine (proj1 (proj1 (recurring_fire_mutation bot_up "a"
              {[ "a" := recurring_post (Some 3) ]} (recurring_post (Some 3))
              (VStr "@channel1") None 7 3 _ _ _ _ _ _ _ _) Hmany));
      first [reflexivity | (vm_compute; congruence)].
  - refine (proj1 (proj1 (proj2 (recurring_fire_mutation bot_up "a"
              {[ "a" := recurring_post (Some 1) ]} (recurring_post (Some 1))
              (VStr "@channel1") None 7 1 _ _ _ _ _ _ _ _)) eq_refl));
      first [reflexivity | (vm_compute; congruence)].
  - refine (proj1 (proj2 (proj2 (recurring_fire_mutation bot_up "a"
              {[ "a" := recurring_post (Some 0) ]} (recurring_post (Some 0))
              (VStr "@channel1") None 7 0 _ _ _ _ _ _ _ _)) eq_refl));
      first [reflexivity | (vm_compute; congruence)].
Defined.

(** C2 (as amended).  When the send succeeds and the pin request, if one
    is made, does not fail, the post-send mutation is applied: a ONE_SHOT
    record is deleted.  When the pin request fails, the failure is logged
    like a send failure and the store is left as it is. *)
Theorem send_then_pin bot id d post chat_id rm mid :
  d !! id = Some post →
  post !! "chat_id" = Some chat_id →
  build_reply_markup (py_get post "buttons" (VList [])) = Ok rm →
  send_content bot post chat_id rm = Ok mid →
  (pin_if_requested bot post chat_id mid = Ok () →
     send_post bot id d =
       match post_send_mutation id post d with
       | Ok d' => Fired d' [InfoSent id] None
       | Raise e => Fired d [InfoSent id; ErrorSendFailed id e] None
       end ∧
     (post !! "type" = Some (VStr "agendada") →
        send_post bot id d = Fired (delete id d) [InfoSent id] None)) ∧
  (∀ e, pin_if_requested bot post chat_id mid = Raise e →
     send_post bot id d = Fired d [InfoSent id; ErrorSendFailed id e] None).
Proof.
  intros Hd Hchat Hrm Hsend.
  rewrite (send_post_sent _ _ _ _ _ _ _ Hd Hchat Hrm Hsend). split.
  - intros Hpin. rewrite (after_send_pinned _ _ _ _ _ _ Hpin).
    split; [done|]. intros Hty. by rewrite post_send_mutation_one_shot.
  - intros e Hpin. by rewrite (after_send_pin_failed _ _ _ _ _ _ _ Hpin).
Qed.

Lemma send_then_pin_witness :
  send_post bot_up "a" {[ "a" := one_shot_post 100 true ]} =
    Fired (delete "a" {[ "a" := one_shot_post 100 true ]}) [InfoSent "a"] None ∧
  send_post bot_no_pin "a" {[ "a" := one_shot_post 100 true ]} =
    Fired {[ "a" := one_shot_post 100 true ]}
          [InfoSent "a"; ErrorSendFailed "a" TelegramError] None.
Proof.
  split.
  - refine (proj2 (proj1 (send_then_pin bot_up "a" {[ "a" := one_shot_post 100 true ]}
              (one_shot_post 100 true) (VStr "@channel1") None 7 _ _ _ _) _) _);
      reflexivity.
  - refine (proj2 (send_then_pin bot_no_pin "a" {[ "a" := one_shot_post 100 true ]}
              (one_shot_post 100 true) (VStr "@channel1") None 7 _ _ _ _)
              TelegramError _);
      reflexivity.
Defined.

(** C2, as stated, fails: the send of a ONE_SHOT record succeeds, the pin
    request fails, and the record is still in the store. *)
Lemma pin_failure_keeps_one_shot :
  send_content bot_no_pin (one_shot_post 100 true) (VStr "@channel1") None = Ok 7 ∧
  one_shot_post 100 true !! "type" = Some (VStr "agendada") ∧
  send_post bot_no_pin "a" {[ "a" := one_shot_post 100 true ]} =
    Fired {[ "a" := one_shot_post 100 true ]}
          [InfoSent "a"; ErrorSendFailed "a" TelegramError] None ∧
  fired_db (send_post bot_no_pin "a" {[ "a" := one_shot_post 100 true ]}) !! "a"
    = Some (one_shot_post 100 true).
Proof. repeat split; reflexivity. Qed.

(** The same on a recurring record with two sends left: the count is not
    lowered when the pin request fails. *)
Lemma pin_failure_keeps_count :
  send_post bot_no_pin "a" {[ "a" := <["pin_post" := VBool true]> (recurring_post (Some 2)) ]} =
    Fired {[ "a" := <["pin_post" := VBool true]> (recurring_post (Some 2)) ]}
          [InfoSent "a"; ErrorSendFailed "a" TelegramError] None.
Proof. reflexivity. Qed.

(** C3.  When the send fails, [send_post] changes nothing in the store
    and only logs the failure.  Fired from the queue: the record of a
    single-fire timer is still there although the timer has left the
    queue; a repeating timer stays. *)
Theorem send_failure_no_mutation bot i a j post chat_id rm e :
  job_queue a !! i = Some j →
  db a !! job_data j = Some post →
  post !! "chat_id" = Some chat_id →
  build_reply_markup (py_get post "buttons" (VList [])) = Ok rm →
  send_content bot post chat_id rm = Raise e →
  send_post bot (job_data j) (db a) =
    Fired (db a) [ErrorSendFailed (job_data j) e] None ∧
  db (fire bot i a) = db a ∧
  db (fire bot i a) !! job_data j = Some post ∧
  (∀ when, job_trigger j = Once when →
     job_queue (fire bot i a) = delete i (job_queue a)) ∧
  (∀ interval first, job_trigger j = Repeating interval first →
     job_queue (fire bot i a) = job_queue a).
Proof.
  intros Hj Hd Hchat Hrm Hsend.
  assert (send_post bot (job_data j) (db a) =
            Fired (db a) [ErrorSendFailed (job_data j) e] None) as Hpost.
  { unfold send_post, py_getitem. by rewrite Hd, Hchat, Hrm, Hsend. }
  unfold fire. rewrite Hj, Hpost. simpl.
  repeat split; [done| |]; intros; by case_match.
Qed.

Lemma send_failure_no_mutation_witness :
  db (fire bot_down 0 (App {[ "a" := one_shot_post 100 false ]}
                           [run_once (VTime 100) "a" "a"]))
    !! "a" = Some (one_shot_post 100 false) ∧
  job_queue (fire bot_down 0 (App {[ "a" := one_shot_post 100 false ]}
                                  [run_once (VTime 100) "a" "a"])) = [].
Proof.
  pose proof (send_failure_no_mutation bot_down 0
    (App {[ "a" := one_shot_post 100 false ]} [run_once (VTime 100) "a" "a"])
    (run_once (VTime 100) "a" "a") (one_shot_post 100 false) (VStr "@channel1")
    None TelegramError eq_refl eq_refl eq_refl eq_refl eq_refl)
    as (_ & _ & Hdb & Honce & _).
  split; [exact Hdb|]. exact (Honce (VTime 100) eq_refl).
Defined.

(** ** The reconciler *)

Lemma armed_by_removed_by t x : removed_by t x = true → armed_by t x = None.
Proof. unfold removed_by, armed_by. by repeat case_match. Qed.

(** A timer armed for a document carries the document's id as its name
    and as its data. *)
Lemma armed_by_name t x j : armed_by t x = Some j → job_name j = x.1 ∧ job_data j = x.1.
Proof.
  unfold armed_by, reload_doc, py_getitem. run_result.
  repeat (case_match; simplify_eq; run_result; try done);
    by intros [= <-].
Qed.

Lemma removed_ids_cons t x docs :
  removed_ids t (x :: docs) =
    if removed_by t x then x.1 :: removed_ids t docs else removed_ids t docs.
Proof.
  unfold removed_ids. rewrite filter_cons.
  destruct (removed_by t x); by case_decide.
Qed.

Lemma reload_doc_effect t id post e :
  reload_doc t id post = Ok e →
  armed_by t (id, post) = (if e is Rearm j then Some j else None) ∧
  removed_by t (id, post) = (if e is Remove then true else false).
Proof. unfold armed_by, removed_by. simpl. intros ->. by destruct e. Qed.

(** A pass in which every document is processed without an exception:
    the deleted documents leave the store, the armed timers join the
    queue in stream order, and the counters count them. *)
Lemma reload_loop_ok t docs st :
  Forall (succeeds t) docs →
  reload_loop t docs st =
    (ReloadState
       (App (foldr delete (db (rs_app st)) (removed_ids t docs))
            (job_queue (rs_app st) ++ omap (armed_by t) docs))
       (jobs_reloaded st + length (omap (armed_by t) docs))
       (jobs_deleted st + length (removed_ids t docs)), None).
Proof.
  revert st. induction docs as [|[id post] docs IH]; intros st Hall.
  - simpl. rewrite app_nil_r, !Nat.add_0_r. by destruct st as [[? ?] ? ?].
  - apply Forall_cons in Hall as [[e He] Hall]. simpl in He.
    destruct (reload_doc_effect _ _ _ _ He) as [Harm Hrm].
    rewrite removed_ids_cons, Hrm. cbn [reload_loop omap list_omap].
    rewrite He, Harm, (IH _ Hall). destruct e as [j| |]; simpl.
    + unfold add_job. rewrite <- app_assoc. simpl. do 2 f_equal. lia.
    + rewrite delete_foldr_delete. do 2 f_equal. lia.
    + done.
Qed.

Lemma reload_loop_succeeds t docs st st' :
  reload_loop t docs st = (st', None) → Forall (succeeds t) docs.
Proof.
  revert st. induction docs as [|[id post] docs IH]; intros st Hrun; [done|].
  simpl in Hrun. destruct (reload_doc t id post) as [e|e] eqn:He; [|done].
  apply Forall_cons. split; [by exists e|]. by eapply IH.
Qed.

(** What a pass of the reconciler that ends normally has done. *)
Lemma reload_jobs_from_db_ok t a st :
  reload_jobs_from_db t a = (st, None) →
  st = ReloadState (App (foldr delete (db a) (removed t a))
                        (job_queue a ++ rearmed t a))
                   (length (rearmed t a)) (length (removed t a)).
Proof.
  unfold reload_jobs_from_db. intros Hrun.
  pose proof (reload_loop_succeeds _ _ _ _ Hrun) as Hall.
  rewrite (reload_loop_ok _ _ _ Hall) in Hrun. simpl in Hrun. by simplify_eq.
Qed.

Lemma elem_of_removed t a id :
  id ∈ removed t a ↔ ∃ post, db a !! id = Some post ∧ removed_by t (id, post) = true.
Proof.
  unfold removed, removed_ids. rewrite list_elem_of_fmap. split.
  - intros [[id' post] [-> [Hrm Hin]%list_elem_of_filter]].
    exists post. by rewrite <- elem_of_map_to_list.
  - intros (post & Hin & Hrm). exists (id, post). split; [done|].
    apply list_elem_of_filter. by rewrite elem_of_map_to_list.
Qed.

Lemma elem_of_rearmed t a j :
  j ∈ rearmed t a ↔ ∃ id post, db a !! id = Some post ∧ armed_by t (id, post) = Some j.
Proof.
  unfold rearmed. rewrite list_elem_of_omap. split.
  - intros ([id post] & Hin & Harm). exists id, post.
    by rewrite <- elem_of_map_to_list.
  - intros (id & post & Hin & Harm). exists (id, post).
    by rewrite elem_of_map_to_list.
Qed.

(** The decision for a ONE_SHOT record with a fire time. *)
Lemma reload_doc_one_shot t id post f :
  post !! "type" = Some (VStr "agendada") →
  post !! "scheduled_for" = Some (VTime f) →
  reload_doc t id post =
    Ok (if t <? f then Rearm (run_once (VTime f) id id) else Remove).
Proof.
  intros Hty Hf. unfold reload_doc, py_getitem, py_get. rewrite Hty, Hf.
  run_result. by destruct (t <? f).
Qed.

(** C5.  In a pass of the reconciler that ends normally, a ONE_SHOT
    record whose fire time is still ahead gets a single-fire timer, is
    among the re-armed the first counter counts, and stays in the store;
    one whose fire time is not ahead is deleted, is among the removed the
    second counter counts, and no timer is armed for it, so nothing is
    sent for it. *)
Theorem reload_one_shot t a st id post f :
  reload_jobs_from_db t a = (st, None) →
  db a !! id = Some post →
  post !! "type" = Some (VStr "agendada") →
  post !! "scheduled_for" = Some (VTime f) →
  job_queue (rs_app st) = job_queue a ++ rearmed t a ∧
  jobs_reloaded st = length (rearmed t a) ∧
  jobs_deleted st = length (removed t a) ∧
  (t < f →
     run_once (VTime f) id id ∈ rearmed t a ∧ (id ∉ removed t a) ∧
     db (rs_app st) !! id = Some post) ∧
  (f ≤ t →
     id ∈ removed t a ∧ (∀ j, j ∈ rearmed t a → job_name j ≠ id) ∧
     db (rs_app st) !! id = None).
Proof.
  intros Hrun Hd Hty Hf. rewrite (reload_jobs_from_db_ok _ _ _ Hrun). simpl.
  pose proof (reload_doc_one_shot t id post f Hty Hf) as Hdoc.
  destruct (reload_doc_effect _ _ _ _ Hdoc) as [Harm Hrm].
  do 3 (split; [done|]). split; intros Ht.
  - assert ((t <? f) = true) as Hlt by lia. rewrite Hlt in Harm, Hrm.
    assert (id ∉ removed t a) as Hnot.
    { rewrite elem_of_removed. intros (post' & Hd' & Hrm'). congruence. }
    split; [|split; [done|]].
    + apply elem_of_rearmed. by exists id, post.
    + by rewrite lookup_foldr_delete_not_elem_of.
  - assert ((t <? f) = false) as Hlt by lia. rewrite Hlt in Harm, Hrm.
    assert (id ∈ removed t a) as Hin.
    { apply elem_of_removed. by exists post. }
    split; [done|]. split; [|by apply lookup_foldr_delete].
    intros j (id' & post' & Hd' & Harm')%elem_of_rearmed Hname.
    apply armed_by_name in Harm' as Hj. simpl in Hj. destruct Hj as [Hj _].
    assert (id' = id) as -> by congruence. congruence.
Qed.

Lemma reload_one_shot_witness :
  db (rs_app (fst (reload_jobs_from_db 100
       (App (<["b" := one_shot_post 50 false]> {[ "a" := one_shot_post 200 false ]})
            [])))) !! "b" = None ∧
  run_once (VTime 200) "a" "a" ∈
    rearmed 100 (App (<["b" := one_shot_post 50 false]>
                        {[ "a" := one_shot_post 200 false ]}) []).
Proof.
  assert (50 ≤ 100) as Hpast by lia.
  assert (100 < 200) as Hahead by lia.
  split.
  - refine (proj2 (proj2 (proj2 (proj2 (proj2 (proj2 (reload_one_shot 100
      (App (<["b" := one_shot_post 50 false]> {[ "a" := one_shot_post 200 false ]}) [])
      _ "b" (one_shot_post 50 false) 50 _ _ _ _)))) Hpast)));
      reflexivity.
  - refine (proj1 (proj1 (proj2 (proj2 (proj2 (reload_one_shot 100
      (App (<["b" := one_shot_post 50 false]> {[ "a" := one_shot_post 200 false ]}) [])
      _ "a" (one_shot_post 200 false) 200 _ _ _ _)))) Hahead));
      reflexivity.
Defined.












(** ** The dialogue *)

Lemma restricted_rejects ADMIN_IDS func u c :
  effective_user u ∉ ADMIN_IDS →
  restricted ADMIN_IDS func u c = (Ok None, c, [Reply (denial u)]).
Proof.
  intros Hu. unfold restricted. rewrite bool_decide_eq_true_2 by done.
  by destruct u.
Qed.

Lemma restricted_admits ADMIN_IDS func u :
  effective_user u ∈ ADMIN_IDS →
  restricted ADMIN_IDS func u = func u.
Proof.
  intros Hu. unfold restricted.
  by rewrite bool_decide_eq_false_2 by (intros Hnot; by apply Hnot).
Qed.

Lemma first_match_elem hs u callback :
  first_match hs u = Some callback → ∃ h, h ∈ hs ∧ snd h = callback.
Proof.
  unfold first_match.
  destruct (List.find (λ h, fst h u) hs) as [h|] eqn:Hfind; [|done].
  intros [= <-]. exists h. split; [|done].
  apply list_elem_of_In. by apply find_some in Hfind as [? _].
Qed.

Lemma table_guarded ADMIN_IDS localize_strptime answer state u callback :
  conv_handler ADMIN_IDS localize_strptime answer state u = Some callback →
  ∃ func, callback = restricted ADMIN_IDS func.
Proof.
  assert (∀ hs, Forall (guarded ADMIN_IDS) hs →
                first_match hs u = Some callback →
                ∃ func, callback = restricted ADMIN_IDS func) as Hlist.
  { intros hs Hall (h & Hin & <-)%first_match_elem.
    rewrite Forall_forall in Hall. exact (Hall _ Hin). }
  assert (Forall (guarded ADMIN_IDS) (fallbacks ADMIN_IDS)) as Hfall
    by (repeat constructor; eexists; reflexivity).
  unfold conv_handler. destruct state as [s|].
  - destruct (first_match (states _ _ _ s) u) as [cb|] eqn:Hstate.
    + intros [= <-]. revert Hstate. apply Hlist.
      destruct s; repeat constructor; eexists; reflexivity.
    + by apply Hlist.
  - apply Hlist. repeat constructor; eexists; reflexivity.
Qed.

(** C7.  An update from an actor who is not on the allow-list: the
    decorator answers with the denial and returns nothing, whatever it
    wraps; through the conversation handler, in every state and for
    every update, the state, the draft, the store and the queue are
    after the call what they were before it, and when a handler of the
    table took the update the only output is the denial. *)
Theorem unauthorized_update_rejected ADMIN_IDS localize_strptime answer u dlg :
  effective_user u ∉ ADMIN_IDS →
  (∀ func c, restricted ADMIN_IDS func u c = (Ok None, c, [Reply (denial u)])) ∧
  fst (process_update ADMIN_IDS localize_strptime answer u dlg) = dlg ∧
  (∀ callback,
     conv_handler ADMIN_IDS localize_strptime answer (conversation dlg) u = Some callback →
     process_update ADMIN_IDS localize_strptime answer u dlg = (dlg, [Reply (denial u)])).
Proof.
  intros Hu. split; [by intros; apply restricted_rejects|].
  unfold process_update.
  destruct (conv_handler _ _ _ _ u) as [callback|] eqn:Hcb; [|done].
  destruct (table_guarded _ _ _ _ _ _ Hcb) as [func ->].
  rewrite restricted_rejects by done. simpl. destruct dlg as [state c].
  split; [done|]. by intros _ _.
Qed.

Lemma unauthorized_update_rejected_witness :
  process_update [1] no_times None (Message 2 (Text "@channel1"))
    (Dialogue (Some AWAITING_CHANNEL) (Context one_shot_draft (App ∅ []))) =
  (Dialogue (Some AWAITING_CHANNEL) (Context one_shot_draft (App ∅ [])),
   [Reply AccessDenied]).
Proof.
  assert (effective_user (Message 2 (Text "@channel1")) ∉ [1]) as Hu.
  { simpl. intros Hin. apply elem_of_cons in Hin as [Hin|Hin]; [lia|].
    by apply elem_of_nil in Hin. }
  exact (proj2 (proj2 (unauthorized_update_rejected [1] no_times None
    (Message 2 (Text "@channel1"))
    (Dialogue (Some AWAITING_CHANNEL) (Context one_shot_draft (App ∅ []))) Hu))
    _ eq_refl).
Defined.

(** What the handler of AWAITING_INTERVAL does with any text: the text,
    in lower case, becomes the interval of the draft and the dialogue
    moves on to the repetitions. *)
Lemma interval_taken_as_given ADMIN_IDS localize_strptime answer user text c :
  user ∈ ADMIN_IDS →
  text ≠ "" →
  process_update ADMIN_IDS localize_strptime answer (Message user (Text text))
    (Dialogue (Some AWAITING_INTERVAL) c) =
  (Dialogue (Some AWAITING_REPETITIONS)
     (Context (<["interval" := VStr (lower text)]> (user_data c)) (application c)),
   [Reply IntervalSaved]).
Proof.
  intros Hu Htext. unfold process_update, conv_handler, states, first_match. simpl.
  rewrite bool_decide_eq_false_2 by done. simpl.
  unfold get_interval. by rewrite restricted_admits.
Qed.

(** C4 fails on the code: in AWAITING_INTERVAL the text [abc], which has
    not the shape of an interval, is stored as the interval and the
    dialogue advances to AWAITING_REPETITIONS. *)
Theorem interval_abc_accepted :
  spec_interval_shape "abc" = false ∧
  process_update [1] no_times None (Message 1 (Text "abc"))
    (Dialogue (Some AWAITING_INTERVAL) (Context one_shot_draft (App ∅ []))) =
  (Dialogue (Some AWAITING_REPETITIONS)
     (Context (<["interval" := VStr "abc"]> one_shot_draft) (App ∅ [])),
   [Reply IntervalSaved]).
Proof.
  split; [reflexivity|].
  apply (interval_taken_as_given [1] no_times None 1 "abc"); [|done].
  by apply elem_of_cons; left.
Qed.

Ltac run_act :=
  unfold try_except, collection_add, firestore_add, update_text, setitem,
    getitem, read, write, lift, arm, reply_text, show_main_menu, say,
    log, clear, raise, the_message, the_query, mbind, act_bind, mret, act_ret;
  simpl.

(** C8.  A draft confirmed by an operator, when the store accepts the
    new document: the document read back under the new id is the draft
    with the owner and the creation time added, so every field of the
    draft (target, text, media type and reference, buttons, pin flag,
    fire time or start, interval and repetitions) is read back exactly
    as the draft had it, and a field the draft did not have is absent. *)
Theorem committed_draft_read_back ADMIN_IDS localize_strptime user new_id now c :
  user ∈ ADMIN_IDS →
  db (application c) !! new_id = None →
  ∃ doc,
    db (application (ctx (fst
      (process_update ADMIN_IDS localize_strptime (Some (new_id, now))
         (Message user (Text "✅ Confirmar"))
         (Dialogue (Some AWAITING_CONFIRMATION) c))))) !! new_id = Some doc ∧
    doc = resolve_timestamp now <$>
            (<["user_id" := VInt user]>
               (<["created_at" := VServerTimestamp]> (user_data c))) ∧
    (∀ k v, k ≠ "created_at" → k ≠ "user_id" →
       user_data c !! k = Some v → v ≠ VServerTimestamp → doc !! k = Some v) ∧
    (∀ k, k ≠ "created_at" → k ≠ "user_id" →
       user_data c !! k = None → doc !! k = None).
Proof.
  intros Hu Hfresh. eexists. split; [|split; [reflexivity|]].
  - unfold process_update, conv_handler, states, first_match. simpl.
    unfold save_schedule. rewrite restricted_admits by done.
    run_act. rewrite Hfresh.
    repeat (case_match; simplify_eq; simpl in *; try by rewrite lookup_insert_eq).
  - split.
    + intros k v Hc Hu' Hk Hv.
      rewrite lookup_fmap, !lookup_insert_ne, Hk by done. by destruct v.
    + intros k Hc Hu' Hk. by rewrite lookup_fmap, !lookup_insert_ne, Hk by done.
Qed.

Lemma committed_draft_read_back_witness :
  ∃ doc,
    db (application (ctx (fst
      (process_update [1] no_times (Some ("s1", 1000))
         (Message 1 (Text "✅ Confirmar"))
         (Dialogue (Some AWAITING_CONFIRMATION)
                   (Context recurring_draft (App ∅ []))))))) !! "s1" = Some doc ∧
    doc !! "chat_id" = Some (VStr "@channel1") ∧
    doc !! "interval" = Some (VStr "30m") ∧
    doc !! "repetitions" = Some (VInt 3) ∧
    doc !! "start_date" = Some (VTime 480).
Proof.
  assert (1 ∈ [1]) as Hu by (by apply elem_of_cons; left).
  assert (db (application (Context recurring_draft (App ∅ []))) !! "s1" = None)
    as Hfresh by reflexivity.
  destruct (committed_draft_read_back [1] no_times 1 "s1" 1000
              (Context recurring_draft (App ∅ [])) Hu Hfresh)
    as (doc & Hread & _ & Hkept & _).
  exists doc. split; [exact Hread|].
  repeat split; apply Hkept; done.
Defined.

(** Scenario A and the recurring draft, committed: the record is created
    and its timer armed. *)
Example commit_one_shot :
  process_update [1] no_times (Some ("s1", 1000)) (Message 1 (Text "✅ Confirmar"))
    (Dialogue (Some AWAITING_CONFIRMATION)
       (Context (<["scheduled_for" := VTime 5000]> one_shot_draft) (App ∅ []))) =
  (Dialogue None
     (Context ∅
        (App {[ "s1" := <["user_id" := VInt 1]>
                          (<["created_at" := VTime 1000]>
                             (<["scheduled_for" := VTime 5000]> one_shot_draft)) ]}
             [run_once (VTime 5000) "s1" "s1"])),
   [Reply Created; Reply MainMenu]).
Proof. vm_compute. reflexivity. Qed.

Example commit_recurring :
  job_queue (application (ctx (fst
    (process_update [1] no_times (Some ("s1", 1000)) (Message 1 (Text "✅ Confirmar"))
       (Dialogue (Some AWAITING_CONFIRMATION) (Context recurring_draft (App ∅ []))))))) =
  [run_repeating 30 (VTime 480) "s1" "s1"].
Proof. vm_compute. reflexivity. Qed.

(** The anchored patterns of the table do not match the text of a
    command, which starts with a slash. *)
Lemma regex_command alternatives c rest :
  Forall (λ a, ∃ ch a', a = String ch a' ∧ ch ≠ "/"%char) alternatives →
  Regex (whole_line alternatives) (Command c rest) = false.
Proof.
  intros Hall. unfold Regex, whole_line. simpl.
  induction Hall as [|a alts (ch & a' & -> & Hch) _ IH]; [done|].
  simpl. rewrite IH.
  rewrite !bool_decide_eq_false_2; [done| |]; intros [=]; congruence.
Qed.

Lemma digits_command c rest : Regex digits_line (Command c rest) = false.
Proof.
  unfold Regex, digits_line. simpl.
  destruct (list_ascii_of_string _); reflexivity.
Qed.

(** No handler of a state takes the [/cancel] command. *)
Lemma states_leave_cancel ADMIN_IDS localize_strptime answer s user c rest :
  lower c = "cancel" →
  first_match (states ADMIN_IDS localize_strptime answer s)
              (Message user (Command c rest)) = None.
Proof.
  intros Hc.
  destruct s; unfold states, first_match, MessageHandler, CommandHandler;
    cbn [List.find fst snd TEXT_not_COMMAND PHOTO_or_VIDEO];
    rewrite ?regex_command, ?digits_command, ?Hc; try done.
  all: repeat (apply Forall_cons; split;
                 [eexists _, _; split; [reflexivity|done]|]);
       apply Forall_nil_2.
Qed.

(** In the states of [token_cancels] no handler of the state takes the
    cancel token; in the others the handler of the state takes it, and
    that handler never ends the conversation. *)
Lemma states_leave_token ADMIN_IDS localize_strptime answer s user :
  token_cancels s = true →
  first_match (states ADMIN_IDS localize_strptime answer s)
              (Message user (Text "❌ Cancelar")) = None.
Proof. by destruct s. Qed.

Lemma states_take_token ADMIN_IDS localize_strptime answer s user :
  token_cancels s = false →
  ∃ func,
    first_match (states ADMIN_IDS localize_strptime answer s)
                (Message user (Text "❌ Cancelar")) = Some (restricted ADMIN_IDS func) ∧
    ∀ c, (func (Message user (Text "❌ Cancelar")) c).1.1 ≠ Ok (Some END).
Proof.
  destruct s; try done; intros _; (eexists; split; [reflexivity|]); intros c;
    run_act; repeat (case_match; simplify_eq; simpl in *; try done);
    by intros [=].
Qed.

Lemma cancel_runs ADMIN_IDS user m c :
  user ∈ ADMIN_IDS →
  cancel ADMIN_IDS (Message user m) c =
    (Ok (Some END), Context ∅ (application c), [Reply Cancelled; Reply MainMenu]).
Proof. intros Hu. unfold cancel. by rewrite restricted_admits. Qed.

(** C9 (as amended).  For an operator, in every state of the dialogue the
    [/cancel] command ends the conversation and empties the draft, and
    leaves the store and the queue as they are.  The cancel token does
    the same in the states whose own handlers do not take it; in the
    other states the handler of the state takes it as its input and the
    conversation goes on. *)
Theorem cancel_from_every_state ADMIN_IDS localize_strptime answer user s c :
  user ∈ ADMIN_IDS →
  (∀ command rest,
     lower command = "cancel" →
     process_update ADMIN_IDS localize_strptime answer
       (Message user (Command command rest)) (Dialogue (Some s) c) =
     (Dialogue None (Context ∅ (application c)),
      [Reply Cancelled; Reply MainMenu])) ∧
  (token_cancels s = true →
     process_update ADMIN_IDS localize_strptime answer
       (Message user (Text "❌ Cancelar")) (Dialogue (Some s) c) =
     (Dialogue None (Context ∅ (application c)),
      [Reply Cancelled; Reply MainMenu])) ∧
  (token_cancels s = false →
     conversation (fst (process_update ADMIN_IDS localize_strptime answer
       (Message user (Text "❌ Cancelar")) (Dialogue (Some s) c))) ≠ None).
Proof.
  intros Hu. split; [|split].
  - intros command rest Hc. unfold process_update, conv_handler. simpl.
    rewrite states_leave_cancel by done.
    unfold fallbacks, first_match. simpl. rewrite Hc. simpl.
    by rewrite cancel_runs.
  - intros Hs. unfold process_update, conv_handler. cbn [conversation ctx].
    rewrite states_leave_token by done.
    change (first_match (fallbacks ADMIN_IDS) (Message user (Text "❌ Cancelar")))
      with (Some (cancel ADMIN_IDS)).
    cbv beta iota. by rewrite cancel_runs.
  - intros Hs. unfold process_update, conv_handler. cbn [conversation ctx].
    destruct (states_take_token ADMIN_IDS localize_strptime answer s user Hs)
      as (func & -> & Hnext).
    cbv beta iota. rewrite restricted_admits by done.
    specialize (Hnext c). destruct (func _ c) as [[r c'] out].
    cbn [fst conversation]. destruct r as [[[s'|]|]|e]; simpl; naive_solver.
Qed.

Lemma cancel_from_every_state_witness :
  process_update [1] no_times None (Message 1 (Command "cancel" ""))
    (Dialogue (Some AWAITING_CHANNEL) (Context one_shot_draft (App ∅ []))) =
  (Dialogue None (Context ∅ (App ∅ [])), [Reply Cancelled; Reply MainMenu]) ∧
  process_update [1] no_times None (Message 1 (Text "❌ Cancelar"))
    (Dialogue (Some AWAITING_CONFIRMATION) (Context one_shot_draft (App ∅ []))) =
  (Dialogue None (Context ∅ (App ∅ [])), [Reply Cancelled; Reply MainMenu]) ∧
  conversation (fst (process_update [1] no_times None (Message 1 (Text "❌ Cancelar"))
    (Dialogue (Some AWAITING_INTERVAL) (Context one_shot_draft (App ∅ []))))) ≠ None.
Proof.
  assert (1 ∈ [1]) as Hu by (by apply elem_of_cons; left).
  split; [|split].
  - exact (proj1 (cancel_from_every_state [1] no_times None 1 AWAITING_CHANNEL
                    (Context one_shot_draft (App ∅ [])) Hu) "cancel" "" eq_refl).
  - exact (proj1 (proj2 (cancel_from_every_state [1] no_times None 1
                    AWAITING_CONFIRMATION
                    (Context one_shot_draft (App ∅ [])) Hu)) eq_refl).
  - exact (proj2 (proj2 (cancel_from_every_state [1] no_times None 1
                    AWAITING_INTERVAL
                    (Context one_shot_draft (App ∅ [])) Hu)) eq_refl).
Defined.

(** C9, as stated, fails: in AWAITING_CHANNEL the cancel token sent by an
    operator does not end the conversation; it is stored as the target
    of the draft and the dialogue moves on to the media. *)
Lemma cancel_token_taken_as_channel :
  token_cancels AWAITING_CHANNEL = false ∧
  process_update [1] no_times None (Message 1 (Text "❌ Cancelar"))
    (Dialogue (Some AWAITING_CHANNEL)
              (Context {[ "type" := VStr "agendada" ]} (App ∅ []))) =
  (Dialogue (Some AWAITING_MEDIA)
     (Context (<["chat_id" := VStr "❌ Cancelar"]> {[ "type" := VStr "agendada" ]})
              (App ∅ [])),
   [Reply ChannelSaved]).
Proof. split; reflexivity. Qed.

(** What follows from an interval that is not one.  The confirmation
    creates the record, fails to arm its timer and reports a failure;
    the next start of the program stops in the reconciler. *)
Lemma abc_draft_committed_without_timer :
  process_update [1] no_times (Some ("s1", 1000)) (Message 1 (Text "✅ Confirmar"))
    (Dialogue (Some AWAITING_CONFIRMATION) (Context abc_draft (App ∅ []))) =
  (Dialogue None
     (Context ∅
        (App {[ "s1" := <["user_id" := VInt 1]>
                          (<["created_at" := VTime 1000]> abc_draft) ]} [])),
   [Logged (ErrorSaveFailed ValueError); Reply SaveFailed]).
Proof. vm_compute. reflexivity. Qed.

Lemma abc_record_stops_reconciler :
  reload_jobs_from_db 2000
    (App {[ "s1" := <["user_id" := VInt 1]>
                     (<["created_at" := VTime 1000]> abc_draft) ]} []) =
  (ReloadState
     (App {[ "s1" := <["user_id" := VInt 1]>
                      (<["created_at" := VTime 1000]> abc_draft) ]} []) 0 0,
   Some ValueError).
Proof. vm_compute. reflexivity. Qed.

(** The sibling prompts do check their input: a date that does not
    parse keeps the state and the draft and asks again. *)
Lemma schedule_time_checked ADMIN_IDS localize_strptime answer user text c :
  user ∈ ADMIN_IDS →
  text ≠ "" →
  localize_strptime text = None →
  process_update ADMIN_IDS localize_strptime answer (Message user (Text text))
    (Dialogue (Some AWAITING_SCHEDULE_TIME) c) =
  (Dialogue (Some AWAITING_SCHEDULE_TIME) c, [Reply InvalidFormat]).
Proof.
  intros Hu Htext Hparse. unfold process_update, conv_handler, states, first_match.
  simpl. rewrite bool_decide_eq_false_2 by done. simpl.
  unfold get_schedule_time. rewrite restricted_admits by done.
  run_act. rewrite Hparse. simpl. by destruct c.
Qed.

Lemma repetitions_checked ADMIN_IDS localize_strptime answer user c :
  process_update ADMIN_IDS localize_strptime answer (Message user (Text "abc"))
    (Dialogue (Some AWAITING_REPETITIONS) c) =
  (Dialogue (Some AWAITING_REPETITIONS) c, []).
Proof. reflexivity. Qed.

(** The queue keeps every timer it is given: after the second pass it
    holds the timer of a record twice, under the same name. *)
Example second_pass_arms_again :
  job_queue (rs_app (fst (reload_jobs_from_db 120
    (rs_app (fst (reload_jobs_from_db 100
       (App {[ "a" := one_shot_post 200 false ]} []))))))) =
  [run_once (VTime 200) "a" "a"; run_once (VTime 200) "a" "a"].
Proof. vm_compute. reflexivity. Qed.

(** Scenario B of the specification: three successful fires of a record
    with three repetitions take the count from 3 to 2 to 1 and then
    delete the record. *)
Example scenario_B :
  fired_db (send_post bot_up "c" {[ "c" := recurring_post (Some 3) ]}) =
    {[ "c" := recurring_post (Some 2) ]} ∧
  fired_db (send_post bot_up "c" {[ "c" := recurring_post (Some 2) ]}) =
    {[ "c" := recurring_post (Some 1) ]} ∧
  fired_db (send_post bot_up "c" {[ "c" := recurring_post (Some 1) ]}) = ∅.
Proof. repeat split; vm_compute; reflexivity. Qed.

(** Scenario E: a single-fire record whose time has passed is deleted at
    start-up, counted as removed, and no timer is armed. *)
Example scenario_E :
  reload_jobs_from_db 100 (App {[ "b" := one_shot_post 50 false ]} []) =
  (ReloadState (App ∅ []) 0 1, None).
Proof. vm_compute. reflexivity. Qed.

(** Scenario A: the one-shot dialogue for [@channel1] with the text
    [Hello], no media, no button, no pin, at 01/01/2030 10:00 creates the
    record and arms its timer; the fire sends the text once and deletes
    the record. *)
Example scenario_A :
  process_updates [1] sample_times
    [(None, CallbackQuery 1 "start_schedule_single");
     (None, Message 1 (Text "@channel1"));
     (None, Message 1 (Command "pular" ""));
     (None, Message 1 (Text "Hello"));
     (None, Message 1 (Text "Não"));
     (None, Message 1 (Text "Não"));
     (None, Message 1 (Text "01/01/2030 10:00"));
     (Some ("s1", 1000), Message 1 (Text "✅ Confirmar"))]
    (Dialogue None (Context ∅ (App ∅ []))) =
  Dialogue None
    (Context ∅
       (App {[ "s1" := <["user_id" := VInt 1]>
                         (<["created_at" := VTime 1000]> (one_shot_post 31558380 false)) ]}
            [run_once (VTime 31558380) "s1" "s1"])) ∧
  fire bot_hello 0
    (App {[ "s1" := <["user_id" := VInt 1]>
                      (<["created_at" := VTime 1000]> (one_shot_post 31558380 false)) ]}
         [run_once (VTime 31558380) "s1" "s1"]) = App ∅ [].
Proof. split; vm_compute; reflexivity. Qed.

(** Scenario D: a time that does not parse keeps the state and the
    draft. *)
Example scenario_D :
  process_update [1] sample_times None (Message 1 (Text "31/13/2025 25:61"))
    (Dialogue (Some AWAITING_SCHEDULE_TIME) (Context one_shot_draft (App ∅ []))) =
  (Dialogue (Some AWAITING_SCHEDULE_TIME) (Context one_shot_draft (App ∅ [])),
   [Reply InvalidFormat]).
Proof. vm_compute. reflexivity. Qed.

(** * Further properties of the code *)

(** ** The dispatcher, whatever the transport does *)

Lemma post_send_mutation_cases id post d d' :
  post_send_mutation id post d = Ok d' →
  d' = d ∨ d' = delete id d ∨
  ∃ v, d' = <[id := <["repetitions" := v]> post]> d.
Proof.
  unfold post_send_mutation, py_getitem. run_result.
  repeat (case_match; simplify_eq; run_result; try done);
    intros [= <-]; eauto.
Qed.

Lemma send_post_cases bot id d :
  fired_db (send_post bot id d) = d ∨
  fired_db (send_post bot id d) = delete id d ∨
  ∃ post v, d !! id = Some post ∧
    fired_db (send_post bot id d) = <[id := <["repetitions" := v]> post]> d.
Proof.
  unfold send_post. destruct (d !! id) as [post|] eqn:Hd; [|by left].
  repeat (case_match; simpl; try by left).
  match goal with H : after_send _ _ _ _ _ _ = Ok _ |- _ => rename H into Hafter end.
  unfold after_send in Hafter. destruct (pin_if_requested _ _ _ _); [|done].
  simpl in Hafter.
  apply post_send_mutation_cases in Hafter as [->|[->|[v ->]]]; eauto 10.
Qed.

(** X1.  A fire concerns its own record only: every other record of the
    store is after [send_post] what it was before, no record is created,
    and the fired record is afterwards absent, unchanged, or changed in
    its [repetitions] field alone. *)
Theorem send_post_frame bot id d :
  (∀ id', id' ≠ id → fired_db (send_post bot id d) !! id' = d !! id') ∧
  (d !! id = None → fired_db (send_post bot id d) = d) ∧
  (∀ post, d !! id = Some post →
     fired_db (send_post bot id d) !! id = None ∨
     fired_db (send_post bot id d) !! id = Some post ∨
     ∃ v, fired_db (send_post bot id d) !! id = Some (<["repetitions" := v]> post)).
Proof.
  destruct (send_post_cases bot id d) as [->|[->|(post & v & Hd & ->)]];
    split_and!.
  - done.
  - done.
  - eauto.
  - intros id' Hne. by rewrite lookup_delete_ne.
  - intros Hd. by apply delete_id.
  - intros post Hd. left. by rewrite lookup_delete_eq.
  - intros id' Hne. by rewrite lookup_insert_ne.
  - congruence.
  - intros post' Hd'. right. right. exists v. rewrite lookup_insert_eq. congruence.
Qed.



Lemma mapM_button_row_cons b (bs : list pyval) :
  mapM button_row (b :: bs) =
    match button_row b with
    | Ok row =>
        match mapM button_row bs with
        | Ok rows => Ok (row :: rows)
        | Raise e => Raise e
        end
    | Raise e => Raise e
    end.
Proof. done. Qed.

Lemma mapM_button_row_raises (bs : list pyval) b e :
  b ∈ bs → button_row b = Raise e → ∃ e', mapM button_row bs = Raise e'.
Proof.
  intros Hin Hb. induction Hin as [b bs|b b' bs Hin IH];
    rewrite mapM_button_row_cons.
  - rewrite Hb. by eexists.
  - destruct (IH Hb) as [e' He']. rewrite He'.
    destruct (button_row b'); by eexists.
Qed.

(** X3.  A record one of whose buttons is not a dictionary with a text
    and a URL is never sent: [send_post] raises before the [try] block,
    makes no request to the transport and leaves the store as it is. *)
Theorem malformed_button_never_sent id d post chat_id bs b e :
  d !! id = Some post →
  post !! "chat_id" = Some chat_id →
  post !! "buttons" = Some (VList bs) →
  b ∈ bs →
  button_row b = Raise e →
  ∃ e', ∀ bot, send_post bot id d = Fired d [] (Some e').
Proof.
  intros Hd Hchat Hbs Hin Hb.
  destruct (mapM_button_row_raises bs b e Hin Hb) as [e' He'].
  assert (build_reply_markup (py_get post "buttons" (VList [])) = Raise e') as Hrm.
  { unfold py_get. rewrite Hbs.
    change (default (VList []) (Some (VList bs))) with (VList bs).
    unfold build_reply_markup. destruct bs as [|b0 bs]; [by inversion Hin|].
    cbn [truthy]. by rewrite He'. }
  exists e'. intros bot. unfold send_post, py_getitem. by rewrite Hd, Hchat, Hrm.
Qed.

Lemma malformed_button_never_sent_witness :
  ∃ e', ∀ bot,
    send_post bot "a"
      {[ "a" := <["buttons" := VList [VDict {[ "text" := VStr "Site" ]}]]>
                  (one_shot_post 100 false) ]} =
    Fired {[ "a" := <["buttons" := VList [VDict {[ "text" := VStr "Site" ]}]]>
                      (one_shot_post 100 false) ]} [] (Some e').
Proof.
  refine (malformed_button_never_sent "a" _ _ (VStr "@channel1")
            [VDict {[ "text" := VStr "Site" ]}] (VDict {[ "text" := VStr "Site" ]})
            KeyError _ _ _ _ _); try reflexivity.
  by apply elem_of_cons; left.
Defined.

(** The send and the pin request do not read the count. *)
Lemma send_ignores_count bot post v chat_id rm mid :
  (<["repetitions" := v]> post) !! "chat_id" = post !! "chat_id" ∧
  (<["repetitions" := v]> post) !! "type" = post !! "type" ∧
  py_get (<["repetitions" := v]> post) "buttons" (VList []) =
    py_get post "buttons" (VList []) ∧
  send_content bot (<["repetitions" := v]> post) chat_id rm =
    send_content bot post chat_id rm ∧
  pin_if_requested bot (<["repetitions" := v]> post) chat_id mid =
    pin_if_requested bot post chat_id mid.
Proof.
  unfold send_content, pin_if_requested, py_get.
  by rewrite !lookup_insert_ne by done.
Qed.

Lemma fire_record_counted bot id d post chat_id rm mid m :
  post !! "type" = Some (VStr "recorrente") →
  post !! "chat_id" = Some chat_id →
  build_reply_markup (py_get post "buttons" (VList [])) = Ok rm →
  send_content bot post chat_id rm = Ok mid →
  pin_if_requested bot post chat_id mid = Ok () →
  m ≤ INT64_MAX →
  fire_record bot id (<[id := <["repetitions" := VInt m]> post]> d) =
    if m =? 1 then delete id d
    else if m =? 0 then <[id := <["repetitions" := VInt m]> post]> d
    else <[id := <["repetitions" := VInt (Z.max INT64_MIN (m - 1))]> post]> d.
Proof.
  intros Hty Hchat Hrm Hsend Hpin Hm.
  destruct (send_ignores_count bot post (VInt m) chat_id rm mid)
    as (Hchat' & Hty' & Hbs' & Hsend' & Hpin').
  unfold fire_record.
  erewrite send_post_sent; [|apply lookup_insert_eq|by rewrite Hchat'
                            |by rewrite Hbs'|by rewrite Hsend'].
  rewrite after_send_pinned by (by rewrite Hpin').
  rewrite (post_send_mutation_recurring _ _ _ m);
    [|by rewrite Hty'|apply lookup_insert_eq|done].
  destruct (m =? 1); simpl; [by rewrite delete_insert_eq|].
  destruct (m =? 0); simpl; [done|]. by rewrite !insert_insert_eq.
Qed.

(** X4.  Successful fires in a row of a RECURRING record with count
    [n > 0]: after [k < n] fires the record is there with count [n - k],
    the [n]-th fire deletes it, and later fires find no record and change
    nothing.  With count 0 every fire leaves the store as it is. *)
Theorem recurring_countdown bot id d post chat_id rm mid n :
  d !! id = Some post →
  post !! "type" = Some (VStr "recorrente") →
  post !! "repetitions" = Some (VInt n) →
  n ≤ INT64_MAX →
  post !! "chat_id" = Some chat_id →
  build_reply_markup (py_get post "buttons" (VList [])) = Ok rm →
  send_content bot post chat_id rm = Ok mid →
  pin_if_requested bot post chat_id mid = Ok () →
  (0 < n →
     (∀ k : nat, Z.of_nat k < n →
        fire_records bot id k d =
          <[id := <["repetitions" := VInt (n - Z.of_nat k)]> post]> d) ∧
     (∀ k : nat, n ≤ Z.of_nat k → fire_records bot id k d = delete id d)) ∧
  (n = 0 → ∀ k, fire_records bot id k d = d).
Proof.
  intros Hd Hty Hrep Hmax Hchat Hrm Hsend Hpin.
  assert (∀ m, <[id := <["repetitions" := VInt m]> post]> d !! id
               = Some (<["repetitions" := VInt m]> post)) as Hlook
    by (intros; apply lookup_insert_eq).
  assert (<[id := <["repetitions" := VInt n]> post]> d = d) as Hsame.
  { rewrite (insert_id post) by done. by apply insert_id. }
  split.
  - intros Hpos.
    assert (∀ k : nat, Z.of_nat k < n →
              fire_records bot id k d =
                <[id := <["repetitions" := VInt (n - Z.of_nat k)]> post]> d) as Hbefore.
    { induction k as [|k IH]; intros Hk.
      - simpl. by rewrite Z.sub_0_r, Hsame.
      - unfold fire_records in *. simpl. rewrite IH by lia.
        rewrite (fire_record_counted bot id d post chat_id rm mid) by (done || lia).
        assert ((n - Z.of_nat k =? 1) = false) as -> by lia.
        assert ((n - Z.of_nat k =? 0) = false) as -> by lia.
        do 3 f_equal. unfold INT64_MIN. lia. }
    split; [done|].
    assert (fire_records bot id (Z.to_nat n) d = delete id d) as Hlast.
    { replace (Z.to_nat n) with (S (Z.to_nat (n - 1))) by lia.
      unfold fire_records in *. simpl. rewrite Hbefore by lia.
      rewrite (fire_record_counted bot id d post chat_id rm mid) by (done || lia).
      rewrite Z2Nat.id by lia. by replace (n - (n - 1)) with 1 by lia. }
    intros k Hk. replace k with (k - Z.to_nat n + Z.to_nat n)%nat by lia.
    induction (k - Z.to_nat n)%nat as [|j IH]; [done|].
    unfold fire_records in *. simpl. rewrite IH. unfold fire_record, send_post.
    by rewrite lookup_delete_eq.
  - intros -> k. induction k as [|k IH]; [done|].
    unfold fire_records in *. simpl. rewrite IH. rewrite <- Hsame at 1.
    rewrite (fire_record_counted bot id d post chat_id rm mid 0) by done.
    simpl. exact Hsame.
Qed.

Lemma recurring_countdown_witness :
  fire_records bot_up "c" 2 {[ "c" := recurring_post (Some 3) ]} =
    <["c" := <["repetitions" := VInt (3 - Z.of_nat 2)]> (recurring_post (Some 3))]>
      {[ "c" := recurring_post (Some 3) ]} ∧
  fire_records bot_up "c" 3 {[ "c" := recurring_post (Some 3) ]} =
    delete "c" {[ "c" := recurring_post (Some 3) ]} ∧
  fire_records bot_up "c" 9 {[ "c" := recurring_post (Some 0) ]} =
    {[ "c" := recurring_post (Some 0) ]}.
Proof.
  assert (0 < 3 ∧ Z.of_nat 2 < 3 ∧ 3 ≤ Z.of_nat 3) as (Hpos & Hk & Hn) by lia.
  split; [|split].
  - refine (proj1 (proj1 (recurring_countdown bot_up "c"
              {[ "c" := recurring_post (Some 3) ]} (recurring_post (Some 3))
              (VStr "@channel1") None 7 3 _ _ _ _ _ _ _ _) Hpos) 2%nat Hk);
      first [reflexivity | (vm_compute; congruence)].
  - refine (proj2 (proj1 (recurring_countdown bot_up "c"
              {[ "c" := recurring_post (Some 3) ]} (recurring_post (Some 3))
              (VStr "@channel1") None 7 3 _ _ _ _ _ _ _ _) Hpos) 3%nat Hn);
      first [reflexivity | (vm_compute; congruence)].
  - refine (proj2 (recurring_countdown bot_up "c"
              {[ "c" := recurring_post (Some 0) ]} (recurring_post (Some 0))
              (VStr "@channel1") None 7 0 _ _ _ _ _ _ _ _) eq_refl 9%nat);
      first [reflexivity | (vm_compute; congruence)].
Defined.

(** ** The reconciler, whatever the outcome of the pass *)

(** A pass, also one that an exception ends, has processed a prefix of
    the stream, each document of it without an exception. *)
Lemma reload_loop_prefix t docs st st' r :
  reload_loop t docs st = (st', r) →
  ∃ done rest,
    docs = done ++ rest ∧ Forall (succeeds t) done ∧
    reload_loop t done st = (st', None) ∧
    (r = None → rest = []).
Proof.
  revert st. induction docs as [|[id post] docs IH]; intros st Hrun.
  - simpl in Hrun. simplify_eq. by exists [], [].
  - simpl in Hrun. destruct (reload_doc t id post) as [e|e] eqn:He.
    + destruct (IH _ Hrun) as (done & rest & -> & Hall & Hdone & Hrest).
      exists ((id, post) :: done), rest. split; [done|]. split.
      * apply Forall_cons. split; [by exists e|done].
      * split; [|done]. simpl. by rewrite He.
    + simplify_eq. by exists [], ((id, post) :: docs).
Qed.

Lemma removed_by_one_shot t id post :
  removed_by t (id, post) = true →
  post !! "type" = Some (VStr "agendada") ∧
  ∃ f, post !! "scheduled_for" = Some (VTime f) ∧ f ≤ t.
Proof.
  unfold removed_by, reload_doc, py_getitem, py_get. simpl. run_result.
  destruct (post !! "type") as [[]|] eqn:Hty; simpl; try done.
  case_bool_decide as Hs; [subst|by repeat case_match].
  split; [done|].
  destruct (post !! "scheduled_for") as [[]|] eqn:Hf; simpl in *; try done;
    try (by repeat case_match).
  eexists. split; [done|]. destruct (t <? _) eqn:Hlt; [done|lia].
Qed.

Lemma size_foldr_delete (m : firestore) ids :
  NoDup ids → Forall (λ i, is_Some (m !! i)) ids →
  (size (foldr delete m ids) + length ids)%nat = size m.
Proof.
  induction 1 as [|i ids Hnot _ IH]; intros Hall; simpl; [lia|].
  apply Forall_cons in Hall as [Hi Hall]. specialize (IH Hall).
  rewrite map_size_delete_Some
    by (by rewrite lookup_foldr_delete_not_elem_of).
  destruct Hi as [x Hi].
  assert (size (foldr delete m ids) ≠ 0%nat); [|lia].
  intros Hempty%map_size_empty_inv.
  assert (foldr delete m ids !! i = Some x) as Hlook
    by (by rewrite lookup_foldr_delete_not_elem_of).
  rewrite Hempty in Hlook. by rewrite lookup_empty in Hlook.
Qed.

(** X5.  Whatever the outcome of a pass of the reconciler, also when an
    exception ends it: the timers that were in the queue are still there,
    in front of the new ones, and the first counter is the number of new
    timers; a record of the resulting store was in the store before,
    unchanged; the second counter is the number of records that left the
    store; and a record that left the store was a ONE_SHOT record whose
    fire time was not ahead. *)
Theorem reload_preserves t a :
  (∃ added,
     job_queue (rs_app (fst (reload_jobs_from_db t a))) = job_queue a ++ added ∧
     jobs_reloaded (fst (reload_jobs_from_db t a)) = length added) ∧
  (∀ id post,
     db (rs_app (fst (reload_jobs_from_db t a))) !! id = Some post →
     db a !! id = Some post) ∧
  (size (db (rs_app (fst (reload_jobs_from_db t a))))
     + jobs_deleted (fst (reload_jobs_from_db t a)))%nat = size (db a) ∧
  (∀ id post,
     db a !! id = Some post →
     db (rs_app (fst (reload_jobs_from_db t a))) !! id = None →
     post !! "type" = Some (VStr "agendada") ∧
     ∃ f, post !! "scheduled_for" = Some (VTime f) ∧ f ≤ t).
Proof.
  unfold reload_jobs_from_db.
  destruct (reload_loop t (map_to_list (db a)) (ReloadState a 0 0))
    as [st' r] eqn:Hrun.
  destruct (reload_loop_prefix _ _ _ _ _ Hrun)
    as (done & rest & Hdocs & Hall & Hdone & _).
  rewrite (reload_loop_ok _ _ _ Hall) in Hdone. simpl in Hdone. simplify_eq.
  simpl.
  assert (∀ id, id ∈ removed_ids t done →
            ∃ post, db a !! id = Some post ∧ removed_by t (id, post) = true)
    as Hremoved.
  { intros id. unfold removed_ids. rewrite list_elem_of_fmap.
    intros ([id' post] & -> & [Hrm Hin]%list_elem_of_filter).
    exists post. split; [|done]. apply elem_of_map_to_list.
    rewrite Hdocs. apply elem_of_app. by left. }
  split_and!.
  - by eexists.
  - by intros id post [_ ?]%lookup_foldr_delete_Some.
  - apply size_foldr_delete.
    + unfold removed_ids. eapply sublist_NoDup;
        [|apply fmap_sublist, sublist_filter].
      pose proof (NoDup_fst_map_to_list (db a)) as Hnd.
      rewrite Hdocs, fmap_app in Hnd. by apply NoDup_app in Hnd as [? _].
    + apply Forall_forall. intros id (post & ? & _)%Hremoved. by exists post.
  - intros id post Hd Hgone.
    destruct (decide (id ∈ removed_ids t done)) as [Hin|Hnot].
    + destruct (Hremoved _ Hin) as (post' & Hd' & Hrm). simplify_eq.
      by apply removed_by_one_shot in Hrm.
    + rewrite lookup_foldr_delete_not_elem_of in Hgone by done. congruence.
Qed.



(** X7.  Every timer that is in the queue after a pass of the
    reconciler, whatever its outcome, was there before or carries, as
    its name and as its data, the id of a record that is in the store
    after the pass. *)
Theorem reload_arms_existing t a j :
  j ∈ job_queue (rs_app (fst (reload_jobs_from_db t a))) →
  j ∈ job_queue a ∨
  (job_data j = job_name j ∧
   is_Some (db (rs_app (fst (reload_jobs_from_db t a))) !! job_name j)).
Proof.
  unfold reload_jobs_from_db.
  destruct (reload_loop t (map_to_list (db a)) (ReloadState a 0 0))
    as [st' r] eqn:Hrun.
  destruct (reload_loop_prefix _ _ _ _ _ Hrun)
    as (done & rest & Hdocs & Hall & Hdone & _).
  rewrite (reload_loop_ok _ _ _ Hall) in Hdone. simpl in Hdone. simplify_eq.
  simpl. intros [Hold|Hnew]%elem_of_app; [by left|right].
  apply list_elem_of_omap in Hnew as ([id post] & Hin & Harm).
  apply armed_by_name in Harm as Hname. simpl in Hname.
  destruct Hname as [Hname Hdata]. rewrite Hname, Hdata. split; [done|].
  assert (∀ post', (id, post') ∈ done → db a !! id = Some post') as Hd.
  { intros post' Hin'. apply elem_of_map_to_list. rewrite Hdocs.
    apply elem_of_app. by left. }
  exists post. apply lookup_foldr_delete_Some. split; [|by apply Hd].
  unfold removed_ids. rewrite list_elem_of_fmap.
  intros ([id' post'] & Hid & [Hrm Hin']%list_elem_of_filter).
  simpl in Hid. subst id'.
  pose proof (Hd _ Hin) as Hpost. pose proof (Hd _ Hin') as Hpost'.
  simplify_eq. rewrite (armed_by_removed_by _ _ Hrm) in Harm. done.
Qed.

Lemma reload_arms_existing_witness :
  job_data (run_once (VTime 200) "a" "a") = job_name (run_once (VTime 200) "a" "a") ∧
  is_Some (db (rs_app (fst (reload_jobs_from_db 100
             (App {[ "a" := one_shot_post 200 false ]} [])))) !! "a").
Proof.
  destruct (reload_arms_existing 100 (App {[ "a" := one_shot_post 200 false ]} [])
              (run_once (VTime 200) "a" "a")) as [Hold|Hnew].
  - vm_compute. by apply elem_of_cons; left.
  - by apply elem_of_nil in Hold.
  - exact Hnew.
Defined.

(** X8.  The decision of the reconciler for a RECURRING record does not
    depend on the time of the pass: with a start date, an interval that
    parses and a count that is zero or more, the repeating timer is armed
    with the stored start, also when that start has passed; with a
    negative count or without a start date the record is left alone. *)
Theorem reload_recurring t id post :
  post !! "type" = Some (VStr "recorrente") →
  (∀ t', reload_doc t' id post = reload_doc t id post) ∧
  (∀ start_date n interval_str interval,
     post !! "start_date" = Some start_date →
     truthy start_date = true →
     post !! "repetitions" = Some (VInt n) →
     post !! "interval" = Some interval_str →
     parse_interval interval_str = Ok interval →
     reload_doc t id post =
       Ok (if 0 <=? n then Rearm (run_repeating interval start_date id id)
           else Untouched)) ∧
  (post !! "start_date" = None → reload_doc t id post = Ok Untouched).
Proof.
  intros Hty. split_and!.
  - intros t'. unfold reload_doc, py_getitem. by rewrite Hty.
  - intros start_date n interval_str interval Hstart Htruthy Hrep Hiv Hparse.
    unfold reload_doc, py_getitem, py_get. rewrite Hty, Hstart, Hrep, Hiv.
    run_result. rewrite Htruthy. simpl.
    destruct (0 <? n) eqn:Hpos; simpl.
    + rewrite Hparse. simpl. by assert ((0 <=? n) = true) as -> by lia.
    + destruct (n =? 0) eqn:Hzero; simpl.
      * rewrite Hparse. simpl. by assert ((0 <=? n) = true) as -> by lia.
      * by assert ((0 <=? n) = false) as -> by lia.
  - intros Hstart. unfold reload_doc, py_getitem, py_get. by rewrite Hty, Hstart.
Qed.

Lemma reload_recurring_witness :
  reload_doc 100000 "c" (recurring_post (Some 0)) =
    Ok (Rearm (run_repeating 30 (VTime 480) "c" "c")) ∧
  reload_doc 100000 "c" (recurring_post (Some (-1))) = Ok Untouched.
Proof.
  split.
  - exact (proj1 (proj2 (reload_recurring 100000 "c" (recurring_post (Some 0)) eq_refl))
             (VTime 480) 0 (VStr "30m") 30 eq_refl eq_refl eq_refl eq_refl eq_refl).
  - exact (proj1 (proj2 (reload_recurring 100000 "c" (recurring_post (Some (-1))) eq_refl))
             (VTime 480) (-1) (VStr "30m") 30 eq_refl eq_refl eq_refl eq_refl eq_refl).
Defined.

(** ** Intervals and counts *)





Lemma digit_not_space c : is_digit c = true → is_space c = false.
Proof.
  unfold is_digit, is_space. intros [H1 H2]%andb_true_iff.
  apply Nat.leb_le in H1, H2.
  apply orb_false_iff. split; [apply Nat.eqb_neq; lia|].
  apply andb_false_iff. right. apply Nat.leb_gt. lia.
Qed.

Lemma digit_val_nonneg c : is_digit c = true → 0 ≤ digit_val c.
Proof.
  unfold is_digit, digit_val. intros [H1 _]%andb_true_iff.
  apply Nat.leb_le in H1. lia.
Qed.

Lemma lstrip_digit c l : is_digit c = true → lstrip (c :: l) = c :: l.
Proof. intros Hc. simpl. by rewrite (digit_not_space c Hc). Qed.

Lemma int_digits_all_digits l prev acc :
  all_digits l → l ≠ [] ∨ prev = true → 0 ≤ acc →
  ∃ n, int_digits prev acc l = Some n ∧ acc ≤ n.
Proof.
  intros Hl. revert prev acc. induction Hl as [|c l Hc _ IH]; intros prev acc Hne Hacc.
  - destruct Hne as [?| ->]; [done|]. exists acc. simpl. split; [done|lia].
  - simpl. rewrite Hc. pose proof (digit_val_nonneg c Hc).
    destruct (IH true (10 * acc + digit_val c)) as (n & Hn & Hle);
      [by right|lia|]. exists n. split; [done|lia].
Qed.

(** [int] of a text made of digits, with or without a final newline. *)
Lemma py_int_digits s l :
  all_digits l → l ≠ [] →
  list_ascii_of_string s = l ∨ list_ascii_of_string s = l ++ ["010"%char] →
  ∃ n, 0 ≤ n ∧ py_int s = Ok n.
Proof.
  intros Hl Hne Hs.
  assert (strip (list_ascii_of_string s) = l) as Hstrip.
  { assert (∃ c l', rev l = c :: l' ∧ is_digit c = true) as (c' & l' & Hrev & Hc').
    { destruct (rev l) as [|c' l'] eqn:Hrev.
      - apply (f_equal (@rev ascii)) in Hrev. rewrite rev_involutive in Hrev. done.
      - exists c', l'. split; [done|].
        assert (In c' (rev l)) as Hin by (rewrite Hrev; by left).
        apply in_rev, list_elem_of_In in Hin.
        unfold all_digits in Hl. rewrite Forall_forall in Hl. by apply Hl. }
    destruct l as [|c l0]; [done|]. apply Forall_cons in Hl as [Hc Hl0].
    unfold strip. destruct Hs as [->| ->].
    - rewrite lstrip_digit by done. rewrite Hrev, lstrip_digit by done.
      by rewrite <- Hrev, rev_involutive.
    - change ((c :: l0) ++ ["010"%char]) with (c :: (l0 ++ ["010"%char])).
      rewrite lstrip_digit by done.
      change (c :: (l0 ++ ["010"%char])) with ((c :: l0) ++ ["010"%char]).
      rewrite rev_unit. change (lstrip ("010"%char :: rev (c :: l0)))
        with (lstrip (rev (c :: l0))).
      rewrite Hrev, lstrip_digit by done. by rewrite <- Hrev, rev_involutive. }
  destruct l as [|c l0]; [done|]. pose proof Hl as Hl'.
  apply Forall_cons in Hl' as [Hc _].
  destruct (int_digits_all_digits (c :: l0) false 0 Hl) as (n & Hn & Hpos);
    [by left|done|].
  exists n. split; [done|]. unfold py_int. rewrite Hstrip.
  assert (c ≠ "-"%char ∧ c ≠ "+"%char) as [Hminus Hplus]
    by (split; intros ->; discriminate).
  destruct c as [[] [] [] [] [] [] [] []]; try done; by rewrite Hn.
Qed.

Lemma chop_newline_spec l :
  l = chop_newline l ∨ l = chop_newline l ++ ["010"%char].
Proof.
  induction l as [|c [|c' l'] IH].
  - by left.
  - simpl. case_bool_decide as Hc; [right; by subst|by left].
  - destruct IH as [IH|IH]; [left|right];
      change (chop_newline (c :: c' :: l')) with (c :: chop_newline (c' :: l'));
      rewrite <- ?app_comm_cons; f_equal; exact IH.
Qed.

Lemma forallb_all_digits l : forallb is_digit l = true → all_digits l.
Proof.
  induction l as [|c l IH]; [by constructor|].
  simpl. intros [Hc Hl]%andb_true_iff. apply Forall_cons. split; [done|by apply IH].
Qed.



(** X11.  An interval of the shape the specification asks for (digits
    and one of the units m, h, d) is always read: the integer is zero or
    more, the unit decides between minutes, hours and days, and only a
    value too large for a [timedelta] can make the computation fail. *)
Theorem shaped_interval_parses s :
  spec_interval_shape s = true →
  ∃ n unit,
    0 ≤ n ∧ last_char s = Some unit ∧ py_int (but_last s) = Ok n ∧
    parse_interval (VStr s) =
      timedelta (if bool_decide (unit = "m"%char) then n
                 else if bool_decide (unit = "h"%char) then 60 * n
                 else 1440 * n) ∧
    (n ≤ 999999999 →
       parse_interval (VStr s) =
         Ok (if bool_decide (unit = "m"%char) then n
             else if bool_decide (unit = "h"%char) then 60 * n
             else 1440 * n)).
Proof.
  unfold spec_interval_shape. destruct (last_char s) as [unit|] eqn:Hlast; [|done].
  intros [_ Hdigits]%andb_true_iff.
  destruct (list_ascii_of_string (but_last s)) as [|c l] eqn:Hbody; [done|].
  apply forallb_all_digits in Hdigits.
  destruct (py_int_digits (but_last s) (c :: l) Hdigits) as (n & Hpos & Hint);
    [done|by left|].
  assert (parse_interval (VStr s) =
            timedelta (if bool_decide (unit = "m"%char) then n
                       else if bool_decide (unit = "h"%char) then 60 * n
                       else 1440 * n)) as Hparse.
  { unfold parse_interval. rewrite Hlast, Hint. run_result. by repeat case_match. }
  exists n, unit. split_and!; try done.
  intros Hmax. rewrite Hparse. unfold timedelta.
  assert (∀ m, 0 ≤ m ≤ 1440 * n →
            (-999999999 <=? m / 1440) && (m / 1440 <=? 999999999) = true) as Hfits.
  { intros m [Hm0 Hm]. apply andb_true_iff. split; apply Z.leb_le.
    - pose proof (Z.div_pos m 1440 Hm0). lia.
    - apply Z.div_le_upper_bound; lia. }
  repeat case_match; rewrite Hfits in *; try done; lia.
Qed.

Lemma shaped_interval_parses_witness :
  ∃ n unit, 0 ≤ n ∧ last_char "12h" = Some unit ∧ py_int (but_last "12h") = Ok n.
Proof.
  destruct (shaped_interval_parses "12h" eq_refl) as (n & unit & Hpos & Hu & Hint & _).
  exists n, unit. split; [exact Hpos|]. split; [exact Hu | exact Hint].
Defined.

(** ** The dialogue: entering, stray input, committing *)

Ltac pick_handler :=
  unfold process_update, conv_handler, states, entry_points, fallbacks,
    first_match, MessageHandler, CommandHandler, CallbackQueryHandler, Regex;
  cbn [conversation ctx List.find fst snd message_text PHOTO_or_VIDEO
       TEXT_not_COMMAND].

(** X12.  A start button pressed by an operator outside a conversation
    opens the dialogue with a fresh draft: whatever [user_data] held is
    discarded and the draft holds the type alone, one-shot when the data
    of the button contains [single] and recurring otherwise. *)
Theorem flow_starts_fresh ADMIN_IDS localize_strptime answer user data c :
  user ∈ ADMIN_IDS →
  String.prefix "start_schedule_" data = true →
  process_update ADMIN_IDS localize_strptime answer (CallbackQuery user data)
    (Dialogue None c) =
  (Dialogue (Some AWAITING_CHANNEL)
     (Context (<["type" := VStr (if index 0 "single" data is Some _
                                 then "agendada" else "recorrente")]> ∅)
              (application c)),
   [Reply QueryAnswered; Reply AskChannel]).
Proof.
  intros Hu Hprefix. pick_handler. rewrite Hprefix.
  cbn [fmap option_fmap option_map snd]. unfold start_schedule_flow.
  by rewrite restricted_admits.
Qed.

Lemma flow_starts_fresh_witness :
  process_update [1] no_times None (CallbackQuery 1 "start_schedule_recurrent")
    (Dialogue None (Context one_shot_draft (App ∅ []))) =
  (Dialogue (Some AWAITING_CHANNEL)
     (Context (<["type" := VStr "recorrente"]> ∅) (App ∅ [])),
   [Reply QueryAnswered; Reply AskChannel]).
Proof.
  assert (1 ∈ [1]) as Hu by (by apply elem_of_cons; left).
  exact (flow_starts_fresh [1] no_times None 1 "start_schedule_recurrent"
           (Context one_shot_draft (App ∅ [])) Hu eq_refl).
Defined.

(** X13.  The conversation handler has no re-entry and no handler
    outside a conversation but the start button: a button pressed during
    a conversation, and a message (also [/cancel] and the cancel token)
    sent outside one, change neither the state nor the draft, for any
    user. *)
Theorem no_reentry_no_stray_message ADMIN_IDS localize_strptime answer user c :
  (∀ s data,
     process_update ADMIN_IDS localize_strptime answer (CallbackQuery user data)
       (Dialogue (Some s) c) = (Dialogue (Some s) c, [])) ∧
  (∀ m,
     process_update ADMIN_IDS localize_strptime answer (Message user m)
       (Dialogue None c) = (Dialogue None c, [])).
Proof. split; [by intros []|done]. Qed.




Lemma commit_runs ADMIN_IDS localize_strptime answer user c :
  user ∈ ADMIN_IDS →
  commit ADMIN_IDS localize_strptime answer user c =
    let '(r, c', out) :=
      save_schedule ADMIN_IDS answer (Message user (Text "✅ Confirmar")) c in
    (Dialogue (next_state (Some AWAITING_CONFIRMATION) r) c', out).
Proof. done. Qed.







(** X18.  Both time prompts check their input: for an operator, a text
    that [strptime] does not read leaves the state and the draft as they
    are and is answered with the format hint. *)
Theorem time_prompts_checked ADMIN_IDS localize_strptime answer user text c :
  user ∈ ADMIN_IDS →
  text ≠ "" →
  localize_strptime text = None →
  process_update ADMIN_IDS localize_strptime answer (Message user (Text text))
    (Dialogue (Some AWAITING_SCHEDULE_TIME) c) =
    (Dialogue (Some AWAITING_SCHEDULE_TIME) c, [Reply InvalidFormat]) ∧
  process_update ADMIN_IDS localize_strptime answer (Message user (Text text))
    (Dialogue (Some AWAITING_START_TIME) c) =
    (Dialogue (Some AWAITING_START_TIME) c, [Reply InvalidFormat]).
Proof.
  intros Hu Htext Hparse. split; [by apply schedule_time_checked|].
  unfold process_update, conv_handler, states, first_match.
  simpl. rewrite bool_decide_eq_false_2 by done. simpl.
  unfold get_start_time. rewrite restricted_admits by done.
  run_act. rewrite Hparse. simpl. by destruct c.
Qed.

Lemma time_prompts_checked_witness :
  process_update [1] sample_times None (Message 1 (Text "31/13/2025 25:61"))
    (Dialogue (Some AWAITING_START_TIME) (Context recurring_draft (App ∅ []))) =
  (Dialogue (Some AWAITING_START_TIME) (Context recurring_draft (App ∅ [])),
   [Reply InvalidFormat]).
Proof.
  assert (1 ∈ [1]) as Hu by (by apply elem_of_cons; left).
  refine (proj2 (time_prompts_checked [1] sample_times None 1 "31/13/2025 25:61"
            (Context recurring_draft (App ∅ [])) Hu _ _)); done.
Defined.

(** ** The dialogue, step by step *)

Ltac take_text :=
  unfold process_update, conv_handler, states, first_match, MessageHandler,
    CommandHandler, Regex;
  cbn [conversation ctx List.find fst snd message_text TEXT_not_COMMAND
       PHOTO_or_VIDEO];
  rewrite ?bool_decide_eq_false_2 by done;
  cbn [negb fmap option_fmap option_map snd].

Lemma process_updates_cons ADMIN_IDS localize_strptime answer u steps dlg :
  process_updates ADMIN_IDS localize_strptime ((answer, u) :: steps) dlg =
  process_updates ADMIN_IDS localize_strptime steps
    (fst (process_update ADMIN_IDS localize_strptime answer u dlg)).
Proof. done. Qed.

Lemma channel_taken ADMIN_IDS localize_strptime answer user text c :
  user ∈ ADMIN_IDS → text ≠ "" →
  process_update ADMIN_IDS localize_strptime answer (Message user (Text text))
    (Dialogue (Some AWAITING_CHANNEL) c) =
  (Dialogue (Some AWAITING_MEDIA)
     (Context (<["chat_id" := VStr text]> (user_data c)) (application c)),
   [Reply ChannelSaved]).
Proof.
  intros Hu Htext. take_text. unfold get_channel. by rewrite restricted_admits.
Qed.

Lemma media_skipped ADMIN_IDS localize_strptime answer user command rest c :
  user ∈ ADMIN_IDS → lower command = "pular" →
  process_update ADMIN_IDS localize_strptime answer
    (Message user (Command command rest)) (Dialogue (Some AWAITING_MEDIA) c) =
  (Dialogue (Some AWAITING_TEXT)
     (Context (<["media_type" := VNone]> (<["media_file_id" := VNone]> (user_data c)))
              (application c)),
   [Reply NoMedia]).
Proof.
  intros Hu Hc. take_text. rewrite Hc, bool_decide_eq_true_2 by done.
  cbn [fmap option_fmap option_map snd].
  unfold skip_media. by rewrite restricted_admits.
Qed.

Lemma media_taken ADMIN_IDS localize_strptime answer user c :
  user ∈ ADMIN_IDS →
  (∀ size sizes,
     process_update ADMIN_IDS localize_strptime answer
       (Message user (Photo (size :: sizes))) (Dialogue (Some AWAITING_MEDIA) c) =
     (Dialogue (Some AWAITING_TEXT)
        (Context (<["media_type" := VStr "photo"]>
                    (<["media_file_id" := VStr (List.last sizes size)]> (user_data c)))
                 (application c)),
      [Reply MediaSaved])) ∧
  (∀ file_id,
     process_update ADMIN_IDS localize_strptime answer
       (Message user (Video file_id)) (Dialogue (Some AWAITING_MEDIA) c) =
     (Dialogue (Some AWAITING_TEXT)
        (Context (<["media_type" := VStr "video"]>
                    (<["media_file_id" := VStr file_id]> (user_data c)))
                 (application c)),
      [Reply MediaSaved])).
Proof.
  intros Hu. split; intros; take_text; unfold get_media;
    by rewrite restricted_admits.
Qed.

Lemma text_taken ADMIN_IDS localize_strptime answer user text c :
  user ∈ ADMIN_IDS → text ≠ "" →
  process_update ADMIN_IDS localize_strptime answer (Message user (Text text))
    (Dialogue (Some AWAITING_TEXT) c) =
  (Dialogue (Some AWAITING_BUTTON_PROMPT)
     (Context (<["text" := VStr text]> (user_data c)) (application c)),
   [Reply TextSaved]).
Proof.
  intros Hu Htext. take_text. unfold get_text. by rewrite restricted_admits.
Qed.

Lemma button_prompt_answered ADMIN_IDS localize_strptime answer user c :
  user ∈ ADMIN_IDS →
  process_update ADMIN_IDS localize_strptime answer (Message user (Text "Sim"))
    (Dialogue (Some AWAITING_BUTTON_PROMPT) c) =
    (Dialogue (Some AWAITING_BUTTON_TEXT) c, [Reply AskButtonText]) ∧
  process_update ADMIN_IDS localize_strptime answer (Message user (Text "Não"))
    (Dialogue (Some AWAITING_BUTTON_PROMPT) c) =
    (Dialogue (Some AWAITING_PIN_OPTION) c, [Reply NoButtons]).
Proof.
  intros Hu. split; take_text;
    [change (whole_line ["Sim"; "Não"] "Sim") with true
    |change (whole_line ["Sim"; "Não"] "Não") with true];
    cbn [fmap option_fmap option_map snd]; unfold get_button_prompt;
    rewrite restricted_admits by done; by destruct c.
Qed.

Lemma pin_answered ADMIN_IDS localize_strptime answer user (pin : bool) ty c :
  user ∈ ADMIN_IDS →
  user_data c !! "type" = Some ty →
  process_update ADMIN_IDS localize_strptime answer
    (Message user (Text (if pin then "Sim" else "Não")))
    (Dialogue (Some AWAITING_PIN_OPTION) c) =
  (Dialogue (Some (if py_eq_str ty "agendada" then AWAITING_SCHEDULE_TIME
                   else AWAITING_INTERVAL))
     (Context (<["pin_post" := VBool pin]> (user_data c)) (application c)),
   [Reply Understood;
    Reply (if py_eq_str ty "agendada" then AskScheduleTime else AskInterval)]).
Proof.
  intros Hu Hty. take_text.
  assert (whole_line ["Sim"; "Não"] (if pin then "Sim" else "Não") = true) as ->
    by (by destruct pin).
  cbn [fmap option_fmap option_map snd]. unfold get_pin_option.
  rewrite restricted_admits by done. run_act.
  assert (bool_decide (lower (if pin then "Sim" else "Não") = "sim") = pin) as ->
    by (by destruct pin).
  unfold py_getitem. rewrite lookup_insert_ne, Hty by done.
  by destruct (py_eq_str ty "agendada").
Qed.

Lemma summarisable_insert data ty k v :
  k ≠ "type" → k ≠ "chat_id" → k ≠ "media_type" → k ≠ "buttons" →
  summarisable data ty → summarisable (<[k := v]> data) ty.
Proof.
  intros ? ? ? ?. unfold summarisable, py_get.
  by rewrite !lookup_insert_ne by done.
Qed.

Lemma confirm_schedule_ok user m data a ty field f :
  summarisable data ty →
  field = (if bool_decide (ty = "agendada") then "scheduled_for" else "start_date") →
  data !! field = Some (VTime f) →
  confirm_schedule (Message user m) (Context data a) =
    (Ok (), Context data a, [Reply (Summary data); Reply AskConfirmation]).
Proof.
  intros (Hty & [chat Hchat] & Hmedia & Hbuttons) -> Hf.
  assert (py_get data (if bool_decide (ty = "agendada")
                       then "scheduled_for" else "start_date") VNone = VTime f) as Hf'
    by (unfold py_get; by rewrite Hf).
  unfold confirm_schedule. run_act. unfold py_getitem. rewrite Hty, Hchat.
  cbv beta iota.
  destruct (truthy (py_get data "media_type" VNone)) eqn:Hmt;
    destruct (truthy (py_get data "buttons" VNone)) eqn:Hbt;
    try (destruct Hmedia as [?|[s Hs]]; [congruence|]);
    try (destruct Hbuttons as [?|[bs Hbs]]; [congruence|]);
    do 2 (cbn [user_data]; rewrite ?Hs, ?Hbs; cbn [needs_str needs_len List.app];
          cbv beta iota);
    case_bool_decide; subst; cbn [py_eq_str];
    rewrite ?bool_decide_eq_true_2, ?bool_decide_eq_false_2 in * by done;
    by rewrite Hf'.
Qed.

Lemma time_taken ADMIN_IDS localize_strptime answer user text f c :
  user ∈ ADMIN_IDS → text ≠ "" → localize_strptime text = Some f →
  (summarisable (user_data c) "agendada" →
   process_update ADMIN_IDS localize_strptime answer (Message user (Text text))
     (Dialogue (Some AWAITING_SCHEDULE_TIME) c) =
   (Dialogue (Some AWAITING_CONFIRMATION)
      (Context (<["scheduled_for" := VTime f]> (user_data c)) (application c)),
    [Reply (Summary (<["scheduled_for" := VTime f]> (user_data c)));
     Reply AskConfirmation])) ∧
  (∀ ty, ty ≠ "agendada" → summarisable (user_data c) ty →
   process_update ADMIN_IDS localize_strptime answer (Message user (Text text))
     (Dialogue (Some AWAITING_START_TIME) c) =
   (Dialogue (Some AWAITING_CONFIRMATION)
      (Context (<["start_date" := VTime f]> (user_data c)) (application c)),
    [Reply (Summary (<["start_date" := VTime f]> (user_data c)));
     Reply AskConfirmation])).
Proof.
  intros Hu Htext Hparse. split.
  - intros Hsum. take_text. unfold get_schedule_time.
    rewrite restricted_admits by done.
    unfold try_except, update_text, the_message, lift, setitem, read, write,
      mbind, act_bind, mret, act_ret, parse_time.
    cbv beta iota delta [message_text]. rewrite Hparse. cbv beta iota.
    cbn [user_data application].
    erewrite confirm_schedule_ok;
      [done|by apply summarisable_insert|by rewrite bool_decide_eq_true_2
      |apply lookup_insert_eq].
  - intros ty Hty Hsum. take_text. unfold get_start_time.
    rewrite restricted_admits by done.
    unfold try_except, update_text, the_message, lift, setitem, read, write,
      mbind, act_bind, mret, act_ret, parse_time.
    cbv beta iota delta [message_text]. rewrite Hparse. cbv beta iota.
    cbn [user_data application].
    erewrite confirm_schedule_ok;
      [done|by apply summarisable_insert|by rewrite bool_decide_eq_false_2
      |apply lookup_insert_eq].
Qed.

Ltac lookup_draft :=
  repeat (rewrite lookup_insert_eq || rewrite lookup_insert_ne by done);
  rewrite ?lookup_empty.

Lemma start_taken ADMIN_IDS localize_strptime answer user data c :
  user ∈ ADMIN_IDS →
  String.prefix "start_schedule_" data = true →
  process_update ADMIN_IDS localize_strptime answer (CallbackQuery user data)
    (Dialogue None c) =
  (Dialogue (Some AWAITING_CHANNEL)
     (Context (<["type" := VStr (if index 0 "single" data is Some _
                                 then "agendada" else "recorrente")]> ∅)
              (application c)),
   [Reply QueryAnswered; Reply AskChannel]).
Proof.
  intros Hu Hprefix. pick_handler. rewrite Hprefix.
  cbn [fmap option_fmap option_map snd]. unfold start_schedule_flow.
  by rewrite restricted_admits.
Qed.

Lemma button_text_taken ADMIN_IDS localize_strptime answer user label c bs :
  user ∈ ADMIN_IDS → label ≠ "" →
  user_data c !! "buttons" = None ∧ bs = [] ∨
    user_data c !! "buttons" = Some (VList bs) →
  process_update ADMIN_IDS localize_strptime answer (Message user (Text label))
    (Dialogue (Some AWAITING_BUTTON_TEXT) c) =
  (Dialogue (Some AWAITING_BUTTON_URL)
     (Context (<["buttons" := VList (bs ++ [VDict {["text" := VStr label]}])]>
                 (user_data c))
              (application c)),
   [Reply ButtonTextSaved]).
Proof.
  intros Hu Hlabel Hbs. take_text. unfold get_button_text.
  rewrite restricted_admits by done. run_act.
  destruct Hbs as [[Hbs ->]|Hbs]; rewrite Hbs; unfold py_getitem; cbn [user_data].
  - rewrite lookup_insert_eq. cbn [user_data]. by rewrite insert_insert_eq.
  - by rewrite Hbs.
Qed.

Lemma button_url_taken ADMIN_IDS localize_strptime answer user url c bs b :
  user ∈ ADMIN_IDS → url ≠ "" →
  user_data c !! "buttons" = Some (VList (bs ++ [VDict b])) →
  process_update ADMIN_IDS localize_strptime answer (Message user (Text url))
    (Dialogue (Some AWAITING_BUTTON_URL) c) =
  (Dialogue (Some AWAITING_PIN_OPTION)
     (Context (<["buttons" := VList (bs ++ [VDict (<["url" := VStr url]> b)])]>
                 (user_data c))
              (application c)),
   [Reply ButtonSaved]).
Proof.
  intros Hu Hurl Hbs. take_text. unfold get_button_url.
  rewrite restricted_admits by done. run_act.
  unfold py_getitem. rewrite Hbs, reverse_snoc. cbn [user_data].
  by rewrite reverse_involutive.
Qed.

Lemma mapM_button_row_snoc (bs : list pyval) rows b row :
  mapM button_row bs = Ok rows → button_row b = Ok row →
  mapM button_row (bs ++ [b]) = Ok (rows ++ [row]).
Proof.
  revert rows. induction bs as [|b0 bs IH]; intros rows Hrows Hrow.
  - assert (rows = []) as -> by (cbv in Hrows; congruence).
    change ([] ++ [b]) with [b]. by rewrite mapM_button_row_cons, Hrow.
  - rewrite mapM_button_row_cons in Hrows.
    change ((b0 :: bs) ++ [b]) with (b0 :: (bs ++ [b])).
    rewrite mapM_button_row_cons.
    destruct (button_row b0) as [row0|]; [|done].
    destruct (mapM button_row bs) as [rows0|]; [|done].
    simplify_eq. by rewrite (IH rows0).
Qed.

Lemma button_row_url_button label url :
  button_row (url_button label url) = Ok (VStr label, VStr url).
Proof.
  unfold button_row, url_button, py_getitem.
  rewrite lookup_insert_eq, (lookup_insert_ne _ "url" "text") by done.
  by rewrite lookup_singleton_eq.
Qed.

Lemma repetitions_taken ADMIN_IDS localize_strptime answer user text n c :
  user ∈ ADMIN_IDS → digits_line text = true → py_int text = Ok n →
  process_update ADMIN_IDS localize_strptime answer (Message user (Text text))
    (Dialogue (Some AWAITING_REPETITIONS) c) =
  (Dialogue (Some AWAITING_START_TIME)
     (Context (<["repetitions" := VInt n]> (user_data c)) (application c)),
   [Reply RepetitionsSaved]).
Proof.
  intros Hu Hline Hint.
  unfold process_update, conv_handler, states, first_match, MessageHandler, Regex.
  cbn [conversation ctx List.find fst snd message_text]. rewrite Hline.
  cbn [fmap option_fmap option_map snd]. unfold get_repetitions.
  rewrite restricted_admits by done. run_act. by rewrite Hint.
Qed.

Lemma digits_nonneg text n : digits_line text = true → py_int text = Ok n → 0 ≤ n.
Proof.
  intros Hline Hint. unfold digits_line in Hline.
  destruct (chop_newline (list_ascii_of_string text)) as [|c l] eqn:Hchop; [done|].
  apply forallb_all_digits in Hline.
  destruct (py_int_digits text (c :: l) Hline) as (n' & Hpos & Hint'); [done| |].
  { rewrite <- Hchop. apply chop_newline_spec. }
  congruence.
Qed.

Lemma confirm_one_shot_taken ADMIN_IDS localize_strptime user new_id now c when :
  user ∈ ADMIN_IDS →
  db (application c) !! new_id = None →
  user_data c !! "type" = Some (VStr "agendada") →
  user_data c !! "scheduled_for" = Some when →
  process_update ADMIN_IDS localize_strptime (Some (new_id, now))
    (Message user (Text "✅ Confirmar")) (Dialogue (Some AWAITING_CONFIRMATION) c) =
    (Dialogue None
       (Context ∅
          (App (<[new_id := resolve_timestamp now <$>
                   (<["user_id" := VInt user]>
                      (<["created_at" := VServerTimestamp]> (user_data c)))]>
                  (db (application c)))
               (job_queue (application c) ++ [run_once when new_id new_id]))),
     [Reply Created; Reply MainMenu]).
Proof.
  intros Hu Hfresh Hty Hwhen.
  change (process_update _ _ _ _ _) with
    (commit ADMIN_IDS localize_strptime (Some (new_id, now)) user c).
  rewrite commit_runs by done.
  unfold save_schedule. rewrite restricted_admits by done. run_act.
  rewrite Hfresh. unfold py_getitem. cbn [user_data application db job_queue].
  rewrite !lookup_insert_ne, Hty by done. cbv beta iota.
  cbn [py_eq_str]. rewrite bool_decide_eq_true_2 by done. cbv beta iota.
  cbn [user_data]. rewrite !lookup_insert_ne, Hwhen by done. done.
Qed.

Lemma confirm_recurring_taken ADMIN_IDS localize_strptime user new_id now c
    ty interval_str interval first :
  user ∈ ADMIN_IDS →
  db (application c) !! new_id = None →
  user_data c !! "type" = Some ty →
  py_eq_str ty "agendada" = false →
  user_data c !! "interval" = Some interval_str →
  parse_interval interval_str = Ok interval →
  user_data c !! "start_date" = Some first →
  process_update ADMIN_IDS localize_strptime (Some (new_id, now))
    (Message user (Text "✅ Confirmar")) (Dialogue (Some AWAITING_CONFIRMATION) c) =
    (Dialogue None
       (Context ∅
          (App (<[new_id := resolve_timestamp now <$>
                   (<["user_id" := VInt user]>
                      (<["created_at" := VServerTimestamp]> (user_data c)))]>
                  (db (application c)))
               (job_queue (application c)
                  ++ [run_repeating interval first new_id new_id]))),
     [Reply Created; Reply MainMenu]).
Proof.
  intros Hu Hfresh Hty Hrec Hiv Hparse Hfirst.
  change (process_update _ _ _ _ _) with
    (commit ADMIN_IDS localize_strptime (Some (new_id, now)) user c).
  rewrite commit_runs by done.
  unfold save_schedule. rewrite restricted_admits by done. run_act.
  rewrite Hfresh. unfold py_getitem. cbn [user_data application db job_queue].
  rewrite !lookup_insert_ne, Hty by done. cbv beta iota. rewrite Hrec.
  cbn [user_data]. rewrite !lookup_insert_ne, Hiv by done. cbv beta iota.
  rewrite Hparse. cbv beta iota. cbn [user_data].
  rewrite Hfirst. done.
Qed.

(** X19.  A confirmed draft that is complete: a one-shot draft with its
    fire time gets its record and a single-fire timer at that time; a
    recurring draft with an interval that parses and its start gets its
    record and a repeating timer with that interval whose first fire is
    the stored start.  The timer carries the id of the record, and the
    operator is told the schedule was created. *)
Theorem commit_complete ADMIN_IDS localize_strptime user new_id now c :
  user ∈ ADMIN_IDS →
  db (application c) !! new_id = None →
  (∀ when,
     user_data c !! "type" = Some (VStr "agendada") →
     user_data c !! "scheduled_for" = Some when →
     commit ADMIN_IDS localize_strptime (Some (new_id, now)) user c =
       (Dialogue None
          (Context ∅
             (App (<[new_id := resolve_timestamp now <$>
                      (<["user_id" := VInt user]>
                         (<["created_at" := VServerTimestamp]> (user_data c)))]>
                     (db (application c)))
                  (job_queue (application c) ++ [run_once when new_id new_id]))),
        [Reply Created; Reply MainMenu])) ∧
  (∀ ty interval_str interval first,
     user_data c !! "type" = Some ty →
     py_eq_str ty "agendada" = false →
     user_data c !! "interval" = Some interval_str →
     parse_interval interval_str = Ok interval →
     user_data c !! "start_date" = Some first →
     commit ADMIN_IDS localize_strptime (Some (new_id, now)) user c =
       (Dialogue None
          (Context ∅
             (App (<[new_id := resolve_timestamp now <$>
                      (<["user_id" := VInt user]>
                         (<["created_at" := VServerTimestamp]> (user_data c)))]>
                     (db (application c)))
                  (job_queue (application c)
                     ++ [run_repeating interval first new_id new_id]))),
        [Reply Created; Reply MainMenu])).
Proof.
  intros Hu Hfresh. split.
  - intros when Hty Hwhen. by apply confirm_one_shot_taken.
  - intros ty interval_str interval first Hty Hrec Hiv Hparse Hfirst.
    by apply (confirm_recurring_taken _ _ _ _ _ _ ty interval_str).
Qed.

Lemma commit_complete_witness :
  commit [1] no_times (Some ("s1", 1000)) 1 (Context recurring_draft (App ∅ [])) =
    (Dialogue None
       (Context ∅
          (App (<["s1" := resolve_timestamp 1000 <$>
                   (<["user_id" := VInt 1]>
                      (<["created_at" := VServerTimestamp]> recurring_draft))]> ∅)
               ([] ++ [run_repeating 30 (VTime 480) "s1" "s1"]))),
     [Reply Created; Reply MainMenu]).
Proof.
  assert (1 ∈ [1]) as Hu by (by apply elem_of_cons; left).
  assert (db (application (Context recurring_draft (App ∅ []))) !! "s1" = None)
    as Hfresh by reflexivity.
  refine (proj2 (commit_complete [1] no_times 1 "s1" 1000
            (Context recurring_draft (App ∅ [])) Hu Hfresh)
            (VStr "recorrente") (VStr "30m") 30 (VTime 480) _ _ _ _ _);
    reflexivity.
Defined.

Lemma one_shot_dialogue_runs ADMIN_IDS localize_strptime user new_id now
    channel text pin when fire_at c :
  user ∈ ADMIN_IDS → channel ≠ "" → text ≠ "" → when ≠ "" →
  localize_strptime when = Some fire_at →
  db (application c) !! new_id = None →
  process_updates ADMIN_IDS localize_strptime
    (one_shot_dialogue user (Some (new_id, now)) channel text pin when)
    (Dialogue None c) =
  Dialogue None
    (Context ∅
       (App (<[new_id := one_shot_record user channel text pin fire_at now]>
               (db (application c)))
            (job_queue (application c) ++ [run_once (VTime fire_at) new_id new_id]))).
Proof.
  intros Hu Hchannel Htext Hwhen Hparse Hfresh. unfold one_shot_dialogue.
  rewrite process_updates_cons, start_taken by done.
  change (if index 0 "single" "start_schedule_single" is Some _
          then "agendada" else "recorrente") with "agendada".
  cbn [fst].
  rewrite process_updates_cons, channel_taken by done.
  cbn [fst user_data application].
  rewrite process_updates_cons, media_skipped by done.
  cbn [fst user_data application].
  rewrite process_updates_cons, text_taken by done.
  cbn [fst user_data application].
  rewrite process_updates_cons, (proj2 (button_prompt_answered _ _ _ _ _ Hu)).
  cbn [fst].
  rewrite process_updates_cons, (pin_answered _ _ _ _ pin (VStr "agendada"))
    by (done || (cbn [user_data]; by rewrite !lookup_insert_ne by done)).
  cbn [py_eq_str]. rewrite bool_decide_eq_true_2 by done.
  cbn [fst user_data application].
  rewrite process_updates_cons.
  rewrite (proj1 (time_taken _ _ _ _ _ fire_at _ Hu Hwhen Hparse)).
  2:{ unfold summarisable, py_get. cbn [user_data]. split_and!.
      - by lookup_draft.
      - lookup_draft. by eexists.
      - left. by lookup_draft.
      - left. by lookup_draft. }
  cbn [fst user_data application].
  rewrite process_updates_cons.
  rewrite (confirm_one_shot_taken _ _ _ _ _ _ (VTime fire_at))
    by (done || (cbn [user_data]; by lookup_draft)).
  cbn [fst user_data application process_updates foldl].
  unfold one_shot_record.
  by rewrite !fmap_insert, fmap_empty.
Qed.

Lemma one_shot_record_fired bot id user channel text pin fire_at now mid d :
  d !! id = None →
  bot (send_message (VStr channel) (VStr text) None) = Some mid →
  (pin = true → is_Some (bot (pin_chat_message (VStr channel) mid))) →
  send_post bot id (<[id := one_shot_record user channel text pin fire_at now]> d) =
    Fired d [InfoSent id] None.
Proof.
  intros Hfresh Hsend Hpin.
  rewrite (send_post_sent bot id _ (one_shot_record user channel text pin fire_at now)
             (VStr channel) None mid).
  - rewrite after_send_pinned, post_send_mutation_one_shot.
    + by rewrite delete_insert_id.
    + unfold one_shot_record. by lookup_draft.
    + unfold pin_if_requested, py_get, one_shot_record. lookup_draft.
      destruct pin; [|done]. cbn [default Datatypes.id truthy]. unfold call.
      by destruct (Hpin eq_refl) as [m ->].
  - apply lookup_insert_eq.
  - unfold one_shot_record. by lookup_draft.
  - unfold py_get, one_shot_record. by lookup_draft.
  - unfold send_content, py_get, one_shot_record. lookup_draft.
    cbn [default Datatypes.id py_eq_str]. unfold call. by rewrite Hsend.
Qed.

Lemma recurring_dialogue_runs ADMIN_IDS localize_strptime user new_id now
    channel size sizes text label url pin interval repetitions start
    every n first c :
  user ∈ ADMIN_IDS →
  channel ≠ "" → text ≠ "" → label ≠ "" → url ≠ "" → interval ≠ "" → start ≠ "" →
  parse_interval (VStr (lower interval)) = Ok every →
  digits_line repetitions = true → py_int repetitions = Ok n →
  localize_strptime start = Some first →
  db (application c) !! new_id = None →
  process_updates ADMIN_IDS localize_strptime
    (recurring_dialogue user (Some (new_id, now)) channel size sizes text label url
       pin interval repetitions start)
    (Dialogue None c) =
  Dialogue None
    (Context ∅
       (App (<[new_id := recurring_record user channel (List.last sizes size) text
                           label url pin (lower interval) n first now]>
               (db (application c)))
            (job_queue (application c)
               ++ [run_repeating every (VTime first) new_id new_id]))).
Proof.
  intros Hu Hchannel Htext Hlabel Hurl Hinterval Hstart Hevery Hline Hint Hparse Hfresh.
  unfold recurring_dialogue.
  rewrite process_updates_cons, start_taken by done.
  change (if index 0 "single" "start_schedule_recurrent" is Some _
          then "agendada" else "recorrente") with "recorrente".
  cbn [fst].
  rewrite process_updates_cons, channel_taken by done.
  cbn [fst user_data application].
  rewrite process_updates_cons, (proj1 (media_taken _ _ _ _ _ Hu)).
  cbn [fst user_data application].
  rewrite process_updates_cons, text_taken by done.
  cbn [fst user_data application].
  rewrite process_updates_cons, (proj1 (button_prompt_answered _ _ _ _ _ Hu)).
  cbn [fst].
  rewrite process_updates_cons, (button_text_taken _ _ _ _ _ _ [])
    by (done || (left; split; [|done]; cbn [user_data]; by lookup_draft)).
  cbn [fst user_data application List.app].
  rewrite process_updates_cons,
    (button_url_taken _ _ _ _ _ _ [] {["text" := VStr label]})
    by (done || (cbn [user_data]; by lookup_draft)).
  cbn [fst user_data application List.app]. rewrite insert_insert_eq.
  rewrite process_updates_cons, (pin_answered _ _ _ _ pin (VStr "recorrente"))
    by (done || (cbn [user_data]; by lookup_draft)).
  cbn [py_eq_str]. rewrite bool_decide_eq_false_2 by done.
  cbn [fst user_data application].
  rewrite process_updates_cons, interval_taken_as_given by done.
  cbn [fst user_data application].
  rewrite process_updates_cons, (repetitions_taken _ _ _ _ _ n) by done.
  cbn [fst user_data application].
  rewrite process_updates_cons.
  rewrite (proj2 (time_taken _ _ _ _ _ first _ Hu Hstart Hparse) "recorrente").
  2: done.
  2:{ unfold summarisable, py_get. cbn [user_data]. split_and!.
      - by lookup_draft.
      - lookup_draft. by eexists.
      - right. lookup_draft. by eexists.
      - right. lookup_draft. by eexists. }
  cbn [fst user_data application].
  rewrite process_updates_cons.
  rewrite (confirm_recurring_taken _ _ _ _ _ _ (VStr "recorrente")
             (VStr (lower interval)) every (VTime first))
    by (done || (cbn [user_data]; by lookup_draft)).
  cbn [fst user_data application process_updates foldl].
  unfold recurring_record, url_button.
  by rewrite !fmap_insert, fmap_empty.
Qed.

Lemma recurring_record_fired bot id user channel file_id text label url pin
    interval n first now mid d :
  d !! id = None →
  bot (send_photo (VStr channel) (VStr file_id) (VStr text)
         (Some [(VStr label, VStr url)])) = Some mid →
  (pin = true → is_Some (bot (pin_chat_message (VStr channel) mid))) →
  0 ≤ n ≤ INT64_MAX →
  let record :=
    recurring_record user channel file_id text label url pin interval n first now in
  send_post bot id (<[id := record]> d) =
    Fired (if n =? 1 then d
           else if n =? 0 then <[id := record]> d
           else <[id := <["repetitions" := VInt (n - 1)]> record]> d)
          [InfoSent id] None.
Proof.
  intros Hfresh Hsend Hpin Hn record.
  rewrite (send_post_sent bot id _ record (VStr channel)
             (Some [(VStr label, VStr url)]) mid).
  - rewrite after_send_pinned, (post_send_mutation_recurring _ _ _ n).
    + rewrite delete_insert_id, insert_insert_eq by done.
      replace (Z.max INT64_MIN (n - 1)) with (n - 1)
        by (unfold INT64_MIN; lia). done.
    + unfold record, recurring_record. by lookup_draft.
    + unfold record, recurring_record. by lookup_draft.
    + lia.
    + unfold pin_if_requested, py_get, record, recurring_record. lookup_draft.
      destruct pin; [|done]. cbn [default Datatypes.id truthy]. unfold call.
      by destruct (Hpin eq_refl) as [m ->].
  - apply lookup_insert_eq.
  - unfold record, recurring_record. by lookup_draft.
  - unfold py_get, record, recurring_record. lookup_draft.
    cbn [default Datatypes.id]. unfold build_reply_markup. cbn [truthy].
    change [url_button label url] with ([] ++ [url_button label url]).
    by rewrite (mapM_button_row_snoc [] [] _ _ eq_refl (button_row_url_button _ _)).
  - unfold send_content, py_get, record, recurring_record. lookup_draft.
    cbn [default Datatypes.id py_eq_str].
    rewrite bool_decide_eq_true_2 by done. unfold call. by rewrite Hsend.
Qed.

(** X20.  The two prompts for a button compose: the label and then the
    URL, sent by an operator, add one complete button at the end of the
    buttons of the draft (after none when the draft has no buttons yet)
    and lead to the pin prompt; when the dispatcher could build rows of
    the buttons before, it builds the same rows followed by the row of
    the new button. *)
Theorem button_collected ADMIN_IDS localize_strptime answer answer' user label url
    c bs :
  user ∈ ADMIN_IDS → label ≠ "" → url ≠ "" →
  user_data c !! "buttons" = None ∧ bs = [] ∨
    user_data c !! "buttons" = Some (VList bs) →
  process_updates ADMIN_IDS localize_strptime
    [(answer, Message user (Text label)); (answer', Message user (Text url))]
    (Dialogue (Some AWAITING_BUTTON_TEXT) c) =
    Dialogue (Some AWAITING_PIN_OPTION)
      (Context (<["buttons" := VList (bs ++ [url_button label url])]> (user_data c))
               (application c)) ∧
  ∀ rows,
    mapM button_row bs = Ok rows →
    build_reply_markup (VList (bs ++ [url_button label url])) =
      Ok (Some (rows ++ [(VStr label, VStr url)])).
Proof.
  intros Hu Hlabel Hurl Hbs. split.
  - rewrite process_updates_cons, (button_text_taken _ _ _ _ _ _ bs) by done.
    cbn [fst].
    rewrite process_updates_cons,
      (button_url_taken _ _ _ _ _ _ bs {["text" := VStr label]})
      by (done || (cbn [user_data]; apply lookup_insert_eq)).
    cbn [fst user_data application process_updates foldl].
    by rewrite insert_insert_eq.
  - intros rows Hrows. unfold build_reply_markup.
    assert (truthy (VList (bs ++ [url_button label url])) = true) as ->
      by (by destruct bs).
    by rewrite (mapM_button_row_snoc bs rows _ _ Hrows (button_row_url_button _ _)).
Qed.

Lemma button_collected_witness :
  process_updates [1] no_times
    [(None, Message 1 (Text "Site")); (None, Message 1 (Text "https://example.org"))]
    (Dialogue (Some AWAITING_BUTTON_TEXT) (Context one_shot_draft (App ∅ []))) =
    Dialogue (Some AWAITING_PIN_OPTION)
      (Context (<["buttons" := VList ([] ++ [url_button "Site" "https://example.org"])]>
                  one_shot_draft)
               (App ∅ [])).
Proof.
  assert (1 ∈ [1]) as Hu by (by apply elem_of_cons; left).
  assert ("Site" ≠ "") as Hlabel by discriminate.
  assert ("https://example.org" ≠ "") as Hurl by discriminate.
  assert (user_data (Context one_shot_draft (App ∅ [])) !! "buttons" = None ∧
          @nil pyval = [] ∨
          user_data (Context one_shot_draft (App ∅ [])) !! "buttons" = Some (VList []))
    as Hbs by (left; split; reflexivity).
  exact (proj1 (button_collected [1] no_times None None 1 "Site" "https://example.org"
                  (Context one_shot_draft (App ∅ [])) [] Hu Hlabel Hurl Hbs)).
Defined.

(** X21.  A one-shot post from the dialogue to its delivery.  An
    operator who presses the one-shot button, names the channel, skips
    the medium, gives the text, declines a button, answers the pin
    prompt, gives a time the clock can read and confirms, with a store
    that accepts the record under a new id: the conversation is over,
    the draft is empty, the store holds the record with exactly the
    fields given and the queue got one single-fire timer at that time
    under the id of the record.  When that record is fired on a
    transport that takes the text for the channel without markup (and
    the pin request, if pinning was asked), the message is logged as
    sent and the store is as it was before the dialogue. *)
Theorem one_shot_end_to_end ADMIN_IDS localize_strptime user new_id now
    channel text pin when fire_at c bot mid :
  user ∈ ADMIN_IDS → channel ≠ "" → text ≠ "" → when ≠ "" →
  localize_strptime when = Some fire_at →
  db (application c) !! new_id = None →
  bot (send_message (VStr channel) (VStr text) None) = Some mid →
  (pin = true → is_Some (bot (pin_chat_message (VStr channel) mid))) →
  process_updates ADMIN_IDS localize_strptime
    (one_shot_dialogue user (Some (new_id, now)) channel text pin when)
    (Dialogue None c) =
    Dialogue None
      (Context ∅
         (App (<[new_id := one_shot_record user channel text pin fire_at now]>
                 (db (application c)))
              (job_queue (application c)
                 ++ [run_once (VTime fire_at) new_id new_id]))) ∧
  send_post bot new_id
    (<[new_id := one_shot_record user channel text pin fire_at now]>
       (db (application c))) =
    Fired (db (application c)) [InfoSent new_id] None.
Proof.
  intros Hu Hchannel Htext Hwhen Hparse Hfresh Hsend Hpin. split.
  - by apply one_shot_dialogue_runs.
  - by apply (one_shot_record_fired _ _ _ _ _ _ _ _ mid).
Qed.

Lemma one_shot_end_to_end_witness :
  process_updates [1] sample_times
    (one_shot_dialogue 1 (Some ("s1", 1000)) "@channel1" "Hello" true
       "01/01/2030 10:00")
    (Dialogue None (Context recurring_draft (App ∅ []))) =
    Dialogue None
      (Context ∅
         (App (<["s1" := one_shot_record 1 "@channel1" "Hello" true 31558380 1000]> ∅)
              ([] ++ [run_once (VTime 31558380) "s1" "s1"]))) ∧
  send_post bot_up "s1"
    (<["s1" := one_shot_record 1 "@channel1" "Hello" true 31558380 1000]> ∅) =
    Fired ∅ [InfoSent "s1"] None.
Proof.
  assert (1 ∈ [1]) as Hu by (by apply elem_of_cons; left).
  assert ("@channel1" ≠ "") as Hchannel by discriminate.
  assert ("Hello" ≠ "") as Htext by discriminate.
  assert ("01/01/2030 10:00" ≠ "") as Hwhen by discriminate.
  assert (true = true → is_Some (bot_up (pin_chat_message (VStr "@channel1") 7)))
    as Hpin by (intros _; by exists 7).
  exact (one_shot_end_to_end [1] sample_times 1 "s1" 1000 "@channel1" "Hello" true
           "01/01/2030 10:00" 31558380 (Context recurring_draft (App ∅ []))
           bot_up 7 Hu Hchannel Htext Hwhen eq_refl eq_refl eq_refl Hpin).
Defined.

(** X22.  A recurring post from the dialogue to its first delivery.  An
    operator who presses the recurring button, names the channel, sends
    a photo, gives the caption, asks for a button and gives its label
    and URL, answers the pin prompt, gives an interval that can be read
    once in lower case, a count the filter accepts, a start the clock
    can read and confirms, with a store that accepts the record under a
    new id: the conversation is over, the draft is empty, the store
    holds the record (the file id of the last size of the photo, the
    interval in lower case, the count as a number that is zero or more)
    and the queue got one repeating timer with that interval from that
    start.  When the record is fired on a transport that takes the
    photo with caption and button row (and the pin request, if asked),
    a count of one removes the record, a count of zero leaves it, and
    any other count is lowered by one. *)
Theorem recurring_end_to_end ADMIN_IDS localize_strptime user new_id now
    channel size sizes text label url pin interval repetitions start
    every n first c bot mid :
  user ∈ ADMIN_IDS →
  channel ≠ "" → text ≠ "" → label ≠ "" → url ≠ "" → interval ≠ "" → start ≠ "" →
  parse_interval (VStr (lower interval)) = Ok every →
  digits_line repetitions = true → py_int repetitions = Ok n → n ≤ INT64_MAX →
  localize_strptime start = Some first →
  db (application c) !! new_id = None →
  bot (send_photo (VStr channel) (VStr (List.last sizes size)) (VStr text)
         (Some [(VStr label, VStr url)])) = Some mid →
  (pin = true → is_Some (bot (pin_chat_message (VStr channel) mid))) →
  0 ≤ n ∧
  process_updates ADMIN_IDS localize_strptime
    (recurring_dialogue user (Some (new_id, now)) channel size sizes text label url
       pin interval repetitions start)
    (Dialogue None c) =
    Dialogue None
      (Context ∅
         (App (<[new_id := recurring_record user channel (List.last sizes size) text
                             label url pin (lower interval) n first now]>
                 (db (application c)))
              (job_queue (application c)
                 ++ [run_repeating every (VTime first) new_id new_id]))) ∧
  send_post bot new_id
    (<[new_id := recurring_record user channel (List.last sizes size) text
                   label url pin (lower interval) n first now]>
       (db (application c))) =
    Fired (if n =? 1 then db (application c)
           else if n =? 0 then
             <[new_id := recurring_record user channel (List.last sizes size) text
                           label url pin (lower interval) n first now]>
               (db (application c))
           else
             <[new_id := <["repetitions" := VInt (n - 1)]>
                           (recurring_record user channel (List.last sizes size) text
                              label url pin (lower interval) n first now)]>
               (db (application c)))
          [InfoSent new_id] None.
Proof.
  intros Hu Hchannel Htext Hlabel Hurl Hinterval Hstart Hevery Hline Hint Hmax
    Hparse Hfresh Hsend Hpin.
  pose proof (digits_nonneg _ _ Hline Hint) as Hpos. split_and!.
  - done.
  - by apply recurring_dialogue_runs.
  - by apply (recurring_record_fired _ _ _ _ _ _ _ _ _ _ _ _ _ mid).
Qed.

Lemma recurring_end_to_end_witness :
  0 ≤ 3 ∧
  process_updates [1] sample_times
    (recurring_dialogue 1 (Some ("s1", 1000)) "@channel1" "AgAD" [] "Hello" "Site"
       "https://example.org" false "2H" "3" "01/01/2030 10:00")
    (Dialogue None (Context ∅ (App ∅ []))) =
    Dialogue None
      (Context ∅
         (App (<["s1" := recurring_record 1 "@channel1" (List.last [] "AgAD") "Hello"
                           "Site" "https://example.org" false (lower "2H") 3
                           31558380 1000]> ∅)
              ([] ++ [run_repeating 120 (VTime 31558380) "s1" "s1"]))).
Proof.
  assert (1 ∈ [1]) as Hu by (by apply elem_of_cons; left).
  assert ("@channel1" ≠ "") as Hchannel by discriminate.
  assert ("Hello" ≠ "") as Htext by discriminate.
  assert ("Site" ≠ "") as Hlabel by discriminate.
  assert ("https://example.org" ≠ "") as Hurl by discriminate.
  assert ("2H" ≠ "") as Hinterval by discriminate.
  assert ("01/01/2030 10:00" ≠ "") as Hstart by discriminate.
  assert (3 ≤ INT64_MAX) as Hmax by (unfold INT64_MAX; lia).
  assert (false = true → is_Some (bot_up (pin_chat_message (VStr "@channel1") 7)))
    as Hpin by (intros _; by exists 7).
  pose proof (recurring_end_to_end [1] sample_times 1 "s1" 1000 "@channel1" "AgAD" []
                "Hello" "Site" "https://example.org" false "2H" "3" "01/01/2030 10:00"
                120 3 31558380 (Context ∅ (App ∅ [])) bot_up 7
                Hu Hchannel Htext Hlabel Hurl Hinterval Hstart eq_refl eq_refl eq_refl
                Hmax eq_refl eq_refl eq_refl Hpin) as (Hpos & Hrun & _).
  exact (conj Hpos Hrun).
Defined.

(** X23.  The buttons of the main menu are wired to the conversation
    table: pressed by an operator outside a conversation, the first
    opens the dialogue for a one-shot post, the second the dialogue for
    a recurring post, and the third is not taken by the conversation
    handler, which leaves the dialogue as it is. *)
Theorem menu_buttons_wired ADMIN_IDS localize_strptime answer user c :
  user ∈ ADMIN_IDS →
  Forall2
    (λ data expected,
       process_update ADMIN_IDS localize_strptime answer (CallbackQuery user data)
         (Dialogue None c) = expected)
    main_menu_callbacks
    [(Dialogue (Some AWAITING_CHANNEL)
        (Context (<["type" := VStr "agendada"]> ∅) (application c)),
      [Reply QueryAnswered; Reply AskChannel]);
     (Dialogue (Some AWAITING_CHANNEL)
        (Context (<["type" := VStr "recorrente"]> ∅) (application c)),
      [Reply QueryAnswered; Reply AskChannel]);
     (Dialogue None c, [])].
Proof.
  intros Hu. unfold main_menu_callbacks.
  repeat (apply Forall2_cons; split); [..|apply Forall2_nil_2].
  - by rewrite start_taken.
  - by rewrite start_taken.
  - by destruct c.
Qed.

Lemma menu_buttons_wired_witness :
  Forall2
    (λ data expected,
       process_update [1] no_times None (CallbackQuery 1 data)
         (Dialogue None (Context one_shot_draft (App ∅ []))) = expected)
    main_menu_callbacks
    [(Dialogue (Some AWAITING_CHANNEL)
        (Context (<["type" := VStr "agendada"]> ∅) (App ∅ [])),
      [Reply QueryAnswered; Reply AskChannel]);
     (Dialogue (Some AWAITING_CHANNEL)
        (Context (<["type" := VStr "recorrente"]> ∅) (App ∅ [])),
      [Reply QueryAnswered; Reply AskChannel]);
     (Dialogue None (Context one_shot_draft (App ∅ [])), [])].
Proof.
  assert (1 ∈ [1]) as Hu by (by apply elem_of_cons; left).
  exact (menu_buttons_wired [1] no_times None 1 (Context one_shot_draft (App ∅ [])) Hu).
Defined.
